(** * Sales management application (app.py): a shallow embedding

    The program is a Streamlit front end over four MongoDB collections
    (users, products, customers, sales).  The functions of app.py that take
    decisions are embedded here as state-passing functions over a small model
    of the document store:

    - a document is a finite map from field names to Python values;
    - a collection is the list of its documents in insertion order
      (the order in which [find_one] and [update_one] look for a match);
    - every request to the store is recorded in a trace and may be answered
      by a transport failure, chosen by an oracle carried in the world;
    - Python exceptions are an error type, [try ... except Exception] is
      [try_except];
    - [get_collections()] only hands out the four collections: it sends
      nothing to the store and is not a step of the model.

    Python floats are IEEE binary64 numbers, modelled by [spec_float] with
    [prec = 53] and [emax = 1024]. *)

From Stdlib Require Import ZArith Bool List Lia SpecFloat.
From Stdlib Require String Ascii.
From stdpp Require Import base option list gmap strings sorting.

(** ** Python values *)

(** An ObjectId is a string of bytes, kept as a number ([oid_of_bytes]
    below): the twelve bytes of an identifier the driver generates or reads
    out of 24 hexadecimal digits are the number those digits denote. *)
Definition oid := N.

Inductive pyval : Type :=
| VNone
| VBool (b : bool)
| VInt (z : Z)
| VFloat (f : spec_float)
| VStr (s : string)
| VOid (o : oid)
| VDate (t : Z).

#[global] Instance spec_float_eq_dec : EqDecision spec_float.
Proof. solve_decision. Defined.

#[global] Instance pyval_eq_dec : EqDecision pyval.
Proof. solve_decision. Defined.

(** A document (a Python dict with string keys). *)
Abbreviation doc := (gmap string pyval).

(** Truth value of [None] or a dict, as tested by [if not user]. *)
Definition truthy (r : option doc) : bool :=
  match r with
  | None => false
  | Some d => negb (bool_decide (d = ∅))
  end.

(** [d.get(k) == s] for a Python [str] [s]. *)
Definition get_eq_str (d : doc) (k : string) (s : string) : bool :=
  match d !! k with
  | Some (VStr s') => bool_decide (s' = s)
  | _ => false
  end.

(** [d.get(k) != s] for a Python [str] [s]. *)
Definition get_ne_str (d : doc) (k : string) (s : string) : bool :=
  negb (get_eq_str d k s).

(** ** Exceptions and results *)

Inductive exn : Type :=
| ValueError (msg : string)
| TypeError
| OverflowError
| InvalidId
| ConnectionFailure
| WriteError.

#[global] Instance exn_eq_dec : EqDecision exn.
Proof. solve_decision. Defined.

(** The names the specification gives to the errors the program raises. *)
Definition InvalidReference : exn := ValueError "Invalid product or customer".
Definition DuplicateUsername : exn := ValueError "Username already exists".
Definition InvalidLiteral : exn := ValueError "invalid literal".

Inductive result (A : Type) : Type :=
| Return (a : A)
| Raise (e : exn).
Arguments Return {A} a.
Arguments Raise {A} e.

(** ** The store *)

Inductive coll : Type := Users | Products | Customers | Sales.

Inductive event : Type :=
| EvFind (c : coll)
| EvInsert (c : coll)
| EvUpdate (c : coll)
| EvDelete (c : coll).

Record DB : Type := mkDB {
  users : list doc;
  products : list doc;
  customers : list doc;
  sales : list doc
}.

(** The world a call runs in: the database, the generator of fresh
    ObjectIds, the clock read by [datetime.utcnow()], the oracle that tells
    which of the coming requests are answered by a transport failure
    ([true] is a failure, an exhausted oracle never fails), and the trace of
    the requests sent so far. *)
Record World : Type := mkWorld {
  db : DB;
  next_oid : oid;
  clock : Z;
  faults : list bool;
  trace : list event
}.

Definition get_coll (c : coll) (d : DB) : list doc :=
  match c with
  | Users => users d
  | Products => products d
  | Customers => customers d
  | Sales => sales d
  end.

Definition set_coll (c : coll) (l : list doc) (d : DB) : DB :=
  match c with
  | Users => mkDB l (products d) (customers d) (sales d)
  | Products => mkDB (users d) l (customers d) (sales d)
  | Customers => mkDB (users d) (products d) l (sales d)
  | Sales => mkDB (users d) (products d) (customers d) l
  end.

(** ** The monad of calls *)

Definition M (A : Type) : Type := World -> result A * World.

Definition ret {A} (a : A) : M A := fun w => (Return a, w).

Definition raise {A} (e : exn) : M A := fun w => (Raise e, w).

Definition bind {A B} (m : M A) (k : A -> M B) : M B :=
  fun w =>
    match m w with
    | (Return a, w') => k a w'
    | (Raise e, w') => (Raise e, w')
    end.

Notation "x <- m ;; k" := (bind m (fun x => k))
  (at level 100, m at next level, right associativity).
Notation "m ;;; k" := (bind m (fun _ => k))
  (at level 100, right associativity).

(** [try: m  except Exception: pass]. *)
Definition try_except (m : M unit) : M unit :=
  fun w =>
    match m w with
    | (Return _, w') => (Return tt, w')
    | (Raise _, w') => (Return tt, w')
    end.

(** A computation that does not touch the world. *)
Definition lift {A} (r : result A) : M A := fun w => (r, w).

(** One request to the store: it is recorded, and the oracle decides whether
    it is answered. *)
Definition sent (ev : event) (w : World) : World :=
  mkWorld (db w) (next_oid w) (clock w) (tail (faults w)) (trace w ++ [ev]).

Definition request (ev : event) : M unit :=
  fun w =>
    match faults w with
    | true :: _ => (Raise ConnectionFailure, sent ev w)
    | _ => (Return tt, sent ev w)
    end.

(** The next [n] requests are answered. *)
Definition quiet (n : nat) (w : World) : bool :=
  forallb negb (take n (faults w)).

Definition read_coll (c : coll) : M (list doc) :=
  fun w => (Return (get_coll c (db w)), w).

Definition write_coll (c : coll) (l : list doc) : M unit :=
  fun w => (Return tt,
            mkWorld (set_coll c l (db w)) (next_oid w) (clock w) (faults w)
                    (trace w)).

(** [ObjectId()]: a fresh identifier. *)
Definition fresh_oid : M oid :=
  fun w => (Return (next_oid w),
            mkWorld (db w) (N.succ (next_oid w)) (clock w) (faults w)
                    (trace w)).

(** [datetime.utcnow()]. *)
Definition utcnow : M Z := fun w => (Return (clock w), w).

(** ** ObjectId *)

Definition hex_digit (c : Ascii.ascii) : option N :=
  let n := Ascii.N_of_ascii c in
  if (48 <=? n)%N && (n <=? 57)%N then Some (n - 48)%N
  else if (97 <=? n)%N && (n <=? 102)%N then Some (n - 87)%N
  else if (65 <=? n)%N && (n <=? 70)%N then Some (n - 55)%N
  else None.

(** The characters [bytes.fromhex] skips: ASCII whitespace. *)
Definition is_ascii_space (c : Ascii.ascii) : bool :=
  let n := Ascii.N_of_ascii c in
  ((9 <=? n)%N && (n <=? 13)%N) || (n =? 32)%N.

(** [bytes.fromhex(s)]: whitespace is skipped before each byte, a byte is
    two hexadecimal digits next to each other; [None] is a [ValueError]. *)
Fixpoint fromhex (s : string) : option (list N) :=
  match s with
  | EmptyString => Some []
  | String c s' =>
      if is_ascii_space c then fromhex s'
      else
        match hex_digit c, s' with
        | Some top, String c' s'' =>
            match hex_digit c' with
            | Some bot => cons (16 * top + bot)%N <$> fromhex s''
            | None => None
            end
        | _, _ => None
        end
  end.

(** The value of a string of bytes, most significant byte first. *)
Definition bytes_value (bs : list N) : N :=
  foldl (fun a b => 256 * a + b)%N 0%N bs.

(** The number that stands for the bytes of an ObjectId.  Twelve bytes are
    their value, below [2 ^ 96]; a string of another length (which
    [ObjectId] builds from 24 characters some of which are whitespace) is
    kept above [2 ^ 96], apart from the strings of every other length. *)
Definition oid_of_bytes (bs : list N) : oid :=
  if Nat.eqb (length bs) 12 then bytes_value bs
  else (2 ^ 96 * N.of_nat (S (length bs)) + bytes_value bs)%N.

(** [ObjectId(s)] for a [str]: the string has 24 characters and
    [bytes.fromhex] reads it; [None] is [InvalidId].  The bytes are not
    counted: 22 digits and two blanks give an identifier of 11 bytes. *)
Definition oid_of_str (s : string) : option oid :=
  if Nat.eqb (String.length s) 24 then oid_of_bytes <$> fromhex s else None.

(** [ObjectId(v)]: a copy of an ObjectId, the bytes read out of a string
    ([InvalidId] when [oid_of_str] has none), a fresh identifier for
    [None], and a [TypeError] for every other value. *)
Definition ObjectId (v : pyval) : M oid :=
  match v with
  | VOid o => ret o
  | VStr s =>
      match oid_of_str s with
      | Some o => ret o
      | None => raise InvalidId
      end
  | VNone => fresh_oid
  | _ => raise TypeError
  end.

(** ** Numbers *)

Definition prec : Z := 53.
Definition emax : Z := 1024.

(** The [float] nearest to an integer (ties to even, an infinity when the
    integer is too large). *)
Definition float_of_Z (z : Z) : spec_float :=
  binary_normalize prec emax z 0 false.

(** Conversion of a Python [int] to a [float]: [OverflowError] when the
    integer is too large. *)
Definition float_of_int (z : Z) : result spec_float :=
  match float_of_Z z with
  | S754_infinity _ => Raise OverflowError
  | f => Return f
  end.

(** Conversion of a [float] to a Python [int]: truncation toward zero. *)
Definition int_of_float (f : spec_float) : result Z :=
  match f with
  | S754_nan => Raise (ValueError "cannot convert float NaN to integer")
  | S754_infinity _ => Raise OverflowError
  | S754_zero _ => Return 0%Z
  | S754_finite s m e =>
      let a := Z.shiftl (Zpos m) e in
      Return (if s then (- a)%Z else a)
  end.

(** Python reads numeric literals out of strings with [int(s)] and
    [float(s)]; the two readers are parameters of the development
    ([None] is a string that is not a literal). *)
Class Literals : Type := {
  int_of_str : string -> option Z;
  float_of_str : string -> option spec_float
}.

(** [int(v)]. *)
Definition py_int `{Literals} (v : pyval) : result Z :=
  match v with
  | VInt z => Return z
  | VBool b => Return (if b then 1 else 0)%Z
  | VFloat f => int_of_float f
  | VStr s =>
      match int_of_str s with
      | Some z => Return z
      | None => Raise InvalidLiteral
      end
  | _ => Raise TypeError
  end.

(** [float(v)]. *)
Definition py_float `{Literals} (v : pyval) : result spec_float :=
  match v with
  | VFloat f => Return f
  | VInt z => float_of_int z
  | VBool b => float_of_int (if b then 1 else 0)%Z
  | VStr s =>
      match float_of_str s with
      | Some f => Return f
      | None => Raise InvalidLiteral
      end
  | _ => Raise TypeError
  end.

(** [q * p] for an [int] [q] and a [float] [p]: the integer is converted,
    then the two floats are multiplied. *)
Definition mul_int_float (q : Z) (p : spec_float) : result spec_float :=
  match float_of_int q with
  | Return fq => Return (SFmul prec emax fq p)
  | Raise e => Raise e
  end.

(** ** Collection methods (pymongo) *)

(** A filter [{k: v}]. *)
Definition matches (k : string) (v : pyval) (d : doc) : bool :=
  bool_decide (d !! k = Some v).

Definition by_id (o : oid) : doc -> bool := matches "_id" (VOid o).

Fixpoint replace_first (p : doc -> bool) (f : doc -> doc) (l : list doc)
  : list doc :=
  match l with
  | [] => []
  | d :: l' => if p d then f d :: l' else d :: replace_first p f l'
  end.

Fixpoint remove_first (p : doc -> bool) (l : list doc) : list doc :=
  match l with
  | [] => []
  | d :: l' => if p d then l' else d :: remove_first p l'
  end.

(** Integers are encoded on at most 8 bytes. *)
Definition int64 (z : Z) : bool := (- 2 ^ 63 <=? z)%Z && (z <? 2 ^ 63)%Z.

Definition bson_value_ok (v : pyval) : bool :=
  match v with
  | VInt z => int64 z
  | _ => true
  end.

Definition bson_ok (d : doc) : bool :=
  bool_decide (map_Forall (fun _ v => bson_value_ok v = true) d).

(** [c.find_one({k: v})]: the first document, in insertion order, whose
    field [k] is [v]. *)
Definition find_one (c : coll) (k : string) (v : pyval) : M (option doc) :=
  request (EvFind c) ;;;
  l <- read_coll c ;;
  ret (find (matches k v) l).

(** [c.insert_one(d).inserted_id]: a document without [_id] receives a
    fresh one; the document is encoded before it is sent.  The unique index
    on [_id] is not modelled: the identifiers come from the generator. *)
Definition insert_one (c : coll) (d : doc) : M pyval :=
  i <- match d !! "_id" with
       | Some v => ret v
       | None => o <- fresh_oid ;; ret (VOid o)
       end ;;
  let d' := <["_id" := i]> d in
  if bson_ok d' then
    request (EvInsert c) ;;;
    l <- read_coll c ;;
    write_coll c (l ++ [d']) ;;;
    ret i
  else raise OverflowError.

(** A field name that [$set] reads as the name of a top-level field: it
    is not empty, it is not a path (no dot), it is not an operator or a
    positional name (no leading dollar sign) and it has no NUL character,
    which a BSON name cannot hold. *)
Fixpoint no_dot_nul (k : string) : bool :=
  match k with
  | EmptyString => true
  | String c k' =>
      let n := Ascii.N_of_ascii c in
      negb (n =? 46)%N && negb (n =? 0)%N && no_dot_nul k'
  end.

Definition plain_key (k : string) : bool :=
  match k with
  | EmptyString => false
  | String c _ => negb (Ascii.N_of_ascii c =? 36)%N && no_dot_nul k
  end.

Definition plain_fields (upd : doc) : bool :=
  negb (bool_decide (upd = ∅))
  && bool_decide (map_Forall (fun k _ => plain_key k = true) upd).

(** The partial updates of the model: at least one field, every name a
    plain field name.  What the store does with an empty [$set] or with a
    dotted path (it writes inside an embedded document) is outside the
    model, whose documents hold scalars only. *)
Record patch : Type := mkPatch {
  patch_fields : doc;
  patch_plain : plain_fields patch_fields = true
}.

(** [c.update_one({"_id": o}, {"$set": upd})]: the fields of [upd] are
    written over those of the first document with that [_id]; no document
    with that [_id] is not an error; [_id] itself cannot be changed. *)
Definition update_one_set (c : coll) (o : oid) (upd : patch) : M unit :=
  let fields := patch_fields upd in
  if bson_ok fields then
    request (EvUpdate c) ;;;
    l <- read_coll c ;;
    match find (by_id o) l with
    | None => ret tt
    | Some _ =>
        if bool_decide (fields !! "_id" = None
                        ∨ fields !! "_id" = Some (VOid o))
        then write_coll c (replace_first (by_id o) (fun d => fields ∪ d) l)
        else raise WriteError
    end
  else raise OverflowError.

(** The effect of [{"$inc": {k: a}}] on one document. *)
Definition inc_field (k : string) (a : Z) (d : doc) : result doc :=
  match d !! k with
  | None => Return (<[k := VInt a]> d)
  | Some (VInt n) =>
      if int64 (n + a) then Return (<[k := VInt (n + a)]> d)
      else Raise WriteError
  | Some (VFloat f) =>
      Return (<[k := VFloat (SFadd prec emax f (float_of_Z a))]> d)
  | Some _ => Raise WriteError
  end.

(** [c.update_one({"_id": o}, {"$inc": {k: a}})]. *)
Definition update_one_inc (c : coll) (o : oid) (k : string) (a : Z) : M unit :=
  if int64 a then
    request (EvUpdate c) ;;;
    l <- read_coll c ;;
    match find (by_id o) l with
    | None => ret tt
    | Some d =>
        match inc_field k a d with
        | Return d' => write_coll c (replace_first (by_id o) (fun _ => d') l)
        | Raise e => raise e
        end
    end
  else raise OverflowError.

(** [c.delete_one({"_id": o})]. *)
Definition delete_one (c : coll) (o : oid) : M unit :=
  request (EvDelete c) ;;;
  l <- read_coll c ;;
  write_coll c (remove_first (by_id o) l).

(** ** Strings *)

(** The characters [str.strip()] removes (code points below 256). *)
Definition is_space (c : Ascii.ascii) : bool :=
  let n := Ascii.N_of_ascii c in
  ((9 <=? n)%N && (n <=? 13)%N) || ((28 <=? n)%N && (n <=? 32)%N)
  || (n =? 133)%N || (n =? 160)%N.

Fixpoint lstrip (s : string) : string :=
  match s with
  | EmptyString => EmptyString
  | String c s' => if is_space c then lstrip s' else s
  end.

Fixpoint rstrip (s : string) : string :=
  match s with
  | EmptyString => EmptyString
  | String c s' =>
      match rstrip s' with
      | EmptyString => if is_space c then EmptyString else String c EmptyString
      | r => String c r
      end
  end.

(** [s.strip()]. *)
Definition strip (s : string) : string := rstrip (lstrip s).

(** [d.get(k)]. *)
Definition dict_get (d : doc) (k : string) : pyval := default VNone (d !! k).

(** ** Auth functions *)

Definition fetch_user_by_username (username : string) : M (option doc) :=
  find_one Users "username" (VStr username).

Definition verify_credentials (username password : string) : M (option doc) :=
  user <- fetch_user_by_username username ;;
  if negb (truthy user) then ret None
  else if get_eq_str (default ∅ user) "password" password then ret user
  else ret None.

(** The document [create_user] builds. *)
Definition user_doc (name username password role : string) : doc :=
  <["name" := VStr name]>
  (<["username" := VStr username]>
   (<["password" := VStr password]>
    (<["role" := VStr role]> ∅))).

Definition create_user (name username password role : string) : M pyval :=
  existing <- find_one Users "username" (VStr username) ;;
  if truthy existing then raise DuplicateUsername
  else insert_one Users (user_doc name username password role).

(** ** CRUD functions *)

Definition list_products : M (list doc) :=
  request (EvFind Products) ;;; read_coll Products.

Definition update_product (prod_id : pyval) (updates : patch) : M unit :=
  o <- ObjectId prod_id ;;
  update_one_set Products o updates.

Definition delete_product (prod_id : pyval) : M unit :=
  o <- ObjectId prod_id ;;
  delete_one Products o.

Definition list_customers : M (list doc) :=
  request (EvFind Customers) ;;; read_coll Customers.

Definition insert_customer (name email phone notes : pyval) : M pyval :=
  insert_one Customers
    (<["name" := name]>
     (<["email" := email]>
      (<["phone" := phone]>
       (<["notes" := notes]> ∅)))).

Definition update_customer (cust_id : pyval) (updates : patch) : M unit :=
  o <- ObjectId cust_id ;;
  update_one_set Customers o updates.

Definition delete_customer (cust_id : pyval) : M unit :=
  o <- ObjectId cust_id ;;
  delete_one Customers o.

Definition list_sales : M (list doc) :=
  request (EvFind Sales) ;;; read_coll Sales.

Section WithLiterals.
Context `{Literals}.

Definition insert_product (name sku price stock description : pyval)
  : M pyval :=
  p <- lift (py_float price) ;;
  s <- lift (py_int stock) ;;
  insert_one Products
    (<["name" := name]>
     (<["sku" := sku]>
      (<["price" := VFloat p]>
       (<["stock" := VInt s]>
        (<["description" := description]> ∅))))).

(** The document [insert_sale] builds. *)
Definition sale_doc (pid : oid) (pname : pyval) (cid : oid) (cname : pyval)
    (quantity : Z) (unit_price total : spec_float) (date : Z) : doc :=
  <["product_id" := VOid pid]>
  (<["product_name" := pname]>
   (<["customer_id" := VOid cid]>
    (<["customer_name" := cname]>
     (<["quantity" := VInt quantity]>
      (<["unit_price" := VFloat unit_price]>
       (<["total" := VFloat total]>
        (<["date" := VDate date]> ∅))))))).

Definition insert_sale (product_id customer_id quantity unit_price : pyval)
    (sale_date : option Z) : M pyval :=
  pid <- ObjectId product_id ;;
  product <- find_one Products "_id" (VOid pid) ;;
  cid <- ObjectId customer_id ;;
  customer <- find_one Customers "_id" (VOid cid) ;;
  if negb (truthy product) || negb (truthy customer)
  then raise InvalidReference
  else
    quantity <- lift (py_int quantity) ;;
    unit_price <- lift (py_float unit_price) ;;
    total <- lift (mul_int_float quantity unit_price) ;;
    sale_date <- match sale_date with
                 | Some t => ret t
                 | None => utcnow
                 end ;;
    pid' <- ObjectId product_id ;;
    cid' <- ObjectId customer_id ;;
    res <- insert_one Sales
             (sale_doc pid' (dict_get (default ∅ product) "name")
                       cid' (dict_get (default ∅ customer) "name")
                       quantity unit_price total sale_date) ;;
    try_except (pid'' <- ObjectId product_id ;;
                update_one_inc Products pid'' "stock" (- quantity)) ;;;
    ret res.

End WithLiterals.

(** ** The login form of the sidebar *)

Record Session : Type := mkSession {
  logged_in : bool;
  user : option doc
}.

(** What the form shows after the button is pressed. *)
Inductive notice : Type :=
| InvalidCredentials
| RoleMismatch (role_choice : string)
| Welcome.

Definition log_in (username password role_choice : string) (st : Session)
  : M (notice * Session) :=
  u <- verify_credentials (strip username) password ;;
  if negb (truthy u) then ret (InvalidCredentials, st)
  else if get_ne_str (default ∅ u) "role" role_choice
       then ret (RoleMismatch role_choice, st)
       else ret (Welcome, mkSession true u).

(** ** Reports *)

(** The report is
    [sales.groupby('product_name')['total'].sum().reset_index()
          .sort_values(by='total', ascending=False)].
    The two columns of the sales frame it reads are kept as rows
    [(product_name, total)]: the names are strings and the totals are
    floats (a float64 column), as in every sale [insert_sale] stores for a
    named product. *)
Abbreviation row := (string * spec_float)%type.

Definition name_le (s1 s2 : string) : Prop := String.leb s1 s2 = true.

#[local] Instance name_le_dec s1 s2 : Decision (name_le s1 s2).
Proof. unfold name_le. apply _. Defined.

(** The keys of the groups, in increasing order. *)
Definition group_keys (rows : list row) : list string :=
  merge_sort name_le (remove_dups (rows.*1)).

(** The totals of the rows of one group, in row order. *)
Definition group_totals (k : string) (rows : list row) : list spec_float :=
  (filter (fun r => r.1 = k) rows).*2.

Definition is_nan (f : spec_float) : bool :=
  match f with
  | S754_nan => true
  | _ => false
  end.

(** One turn of the loop of pandas' [group_sum] for one group: a value that
    is NaN is skipped; the others are added with Kahan's compensation, which
    is put back to zero when it is NaN. *)
Definition kahan_step (acc : spec_float * spec_float) (val : spec_float)
  : spec_float * spec_float :=
  let (sumx, compensation) := acc in
  if is_nan val then acc
  else
    let y := SFsub prec emax val compensation in
    let t := SFadd prec emax sumx y in
    let c := SFsub prec emax (SFsub prec emax t sumx) y in
    (t, if is_nan c then S754_zero false else c).

(** The sum of a group ([min_count] is 0: a group without a value sums to
    zero). *)
Definition group_sum (vals : list spec_float) : spec_float :=
  (foldl kahan_step (S754_zero false, S754_zero false) vals).1.

Definition groupby_sum (rows : list row) : list row :=
  (fun k => (k, group_sum (group_totals k rows))) <$> group_keys rows.

(** The order of floats in a descending sort: NaN comes last. *)
Definition float_geb (x y : spec_float) : bool :=
  match y, x with
  | S754_nan, _ => true
  | _, S754_nan => false
  | _, _ =>
      match SFcompare x y with
      | Some Lt => false
      | _ => true
      end
  end.

Definition total_ge (a b : row) : Prop := float_geb a.2 b.2 = true.

#[local] Instance total_ge_dec a b : Decision (total_ge a b).
Proof. unfold total_ge. apply _. Defined.

Definition sort_by_total_desc (l : list row) : list row :=
  merge_sort total_ge l.

Definition sales_by_product (rows : list row) : list row :=
  sort_by_total_desc (groupby_sum rows).

(** The report of the page: nothing is computed for an empty frame. *)
Definition byprod (rows : list row) : option (list row) :=
  match rows with
  | [] => None
  | _ => Some (sales_by_product rows)
  end.

(** The place of a float in the order of the sort, as three integers
    compared one after the other. *)
Definition float_rank (f : spec_float) : Z * Z * Z :=
  match f with
  | S754_nan => (-3, 0, 0)
  | S754_infinity true => (-2, 0, 0)
  | S754_finite true m e => (-1, - e, - Zpos m)
  | S754_zero _ => (0, 0, 0)
  | S754_finite false m e => (1, e, Zpos m)
  | S754_infinity false => (2, 0, 0)
  end%Z.

Definition rank_ge (a b : Z * Z * Z) : Prop :=
  (a.1.1 > b.1.1
   \/ (a.1.1 = b.1.1
       /\ (a.1.2 > b.1.2 \/ (a.1.2 = b.1.2 /\ a.2 >= b.2))))%Z.

(** ** Auxiliary definitions used by the statements *)

(** The identifier a value denotes without help from the generator. *)
Definition known_id (v : pyval) : option oid :=
  match v with
  | VOid o => Some o
  | VStr s => oid_of_str s
  | _ => None
  end.

(** The world once the two lookups of [insert_sale] have been answered and
    the sale [sale] has been stored. *)
Definition sale_stored (sale : doc) (w : World) : World :=
  mkWorld (set_coll Sales (sales (db w) ++ [sale]) (db w))
          (N.succ (next_oid w)) (clock w) (drop 3 (faults w))
          (trace w ++ [EvFind Products; EvFind Customers; EvInsert Sales]).

(** The best-effort step of [insert_sale]. *)
Definition decrement_stock (pid : oid) (q : Z) : M unit :=
  update_one_inc Products pid "stock" (- q).

(** Identifiers are unique in a collection (the store's index on [_id]). *)
Definition unique_ids (l : list doc) : Prop :=
  NoDup ((fun d => d !! "_id") <$> l).

(** Readers of plain decimal integers, to run the functions on examples
    (Python's [int] and [float] read more literals than these). *)
Definition digit (c : Ascii.ascii) : option Z :=
  let n := Ascii.N_of_ascii c in
  if (48 <=? n)%N && (n <=? 57)%N then Some (Z.of_N (n - 48)) else None.

Fixpoint digits_value (acc : Z) (s : string) : option Z :=
  match s with
  | EmptyString => Some acc
  | String c s' =>
      match digit c with
      | Some d => digits_value (10 * acc + d)%Z s'
      | None => None
      end
  end.

Definition unsigned_value (s : string) : option Z :=
  match s with
  | EmptyString => None
  | _ => digits_value 0%Z s
  end.

Definition plain_int (s : string) : option Z :=
  match strip s with
  | EmptyString => None
  | String c s' =>
      if (Ascii.N_of_ascii c =? 45)%N then Z.opp <$> unsigned_value s'
      else if (Ascii.N_of_ascii c =? 43)%N then unsigned_value s'
      else unsigned_value (String c s')
  end.

Definition plain_float (s : string) : option spec_float :=
  match plain_int s with
  | Some z =>
      match float_of_int z with
      | Return f => Some f
      | Raise _ => None
      end
  | None => None
  end.

Definition plain_literals : Literals :=
  {| int_of_str := plain_int; float_of_str := plain_float |}.

(** A shop with one product and one customer, to run the functions on. *)
Definition tshirt : doc :=
  <["_id" := VOid 1%N]>
  (<["name" := VStr "T-Shirt"]>
   (<["sku" := VStr "TSH-001"]>
    (<["price" := VFloat (float_of_Z 299)]>
     (<["stock" := VInt 100]>
      (<["description" := VStr "Cotton T-Shirt"]> ∅))))).

Definition amit : doc :=
  <["_id" := VOid 2%N]>
  (<["name" := VStr "Amit"]>
   (<["email" := VStr "amit@example.com"]>
    (<["phone" := VStr "9876543210"]>
     (<["notes" := VStr "VIP"]> ∅)))).

Definition admin : doc :=
  <["_id" := VOid 3%N]>
  (<["name" := VStr "Admin User"]>
   (<["username" := VStr "admin"]>
    (<["password" := VStr "adminpass"]>
     (<["role" := VStr "admin"]> ∅)))).

Definition shop : World :=
  mkWorld (mkDB [admin] [tshirt] [amit] []) 10%N 0%Z [] [].

(** Three partial updates: a new price, a new name, another identifier. *)
Definition new_price : patch :=
  mkPatch {["price" := VFloat (float_of_Z 349)]} eq_refl.

Definition new_name : patch := mkPatch {["name" := VStr "Cap"]} eq_refl.

Definition new_id : patch := mkPatch {["_id" := VOid 7%N]} eq_refl.

(** The shop once two shirts have been sold to the customer. *)
Definition shop_sold : World :=
  (@insert_sale plain_literals (VOid 1%N) (VOid 2%N) (VInt 2)
                (VFloat (float_of_Z 299)) None shop).2.

(** A store with nothing in it. *)
Definition empty_world : World := mkWorld (mkDB [] [] [] []) 0%N 0%Z [] [].

(** The columns [product_name] and [total] of the frame built from the
    sales, when every sale has a string for its product name and a float
    for its total (what [insert_sale] stores for a named product); frames
    with other values in these columns are outside the model. *)
Definition sale_row (d : doc) : option row :=
  match d !! "product_name", d !! "total" with
  | Some (VStr n), Some (VFloat t) => Some (n, t)
  | _, _ => None
  end.

Definition frame_rows (l : list doc) : option (list row) :=
  mapM sale_row l.

(** The sales of the example of the specification. *)
Definition example_rows : list row :=
  [("A", float_of_Z 100); ("B", float_of_Z 50); ("A", float_of_Z 25)].

(** A byte. *)
Definition is_byte (b : N) : Prop := (b < 256)%N.

(** * Properties *)

(** ** Running the monad *)

Lemma bind_return {A B} (m : M A) (k : A -> M B) w a w' :
  m w = (Return a, w') -> bind m k w = k a w'.
Proof. intros E. unfold bind. now rewrite E. Qed.

Lemma bind_raise {A B} (m : M A) (k : A -> M B) w e w' :
  m w = (Raise e, w') -> bind m k w = (Raise e, w').
Proof. intros E. unfold bind. now rewrite E. Qed.

Lemma ObjectId_known v o w :
  known_id v = Some o -> ObjectId v w = (Return o, w).
Proof.
  destruct v; simpl; try discriminate.
  - intros E. now rewrite E.
  - intros E. now inversion E.
Qed.


(** ** The bytes of an identifier

    The number kept for an ObjectId stands for its bytes: two strings that
    [ObjectId] reads as the same identifier hold the same bytes. *)

Lemma bytes_value_from a bs :
  foldl (fun a b => 256 * a + b)%N a bs
  = (a * 256 ^ N.of_nat (length bs) + bytes_value bs)%N.
Proof.
  unfold bytes_value. revert a. induction bs as [|b bs IH]; intros a.
  - simpl. lia.
  - cbn [foldl length]. rewrite IH, (IH (256 * 0 + b)%N).
    rewrite Nat2N.inj_succ, N.pow_succ_r'. lia.
Qed.

Lemma bytes_value_cons b bs :
  bytes_value (b :: bs) = (b * 256 ^ N.of_nat (length bs) + bytes_value bs)%N.
Proof.
  unfold bytes_value at 1. cbn [foldl]. rewrite bytes_value_from. lia.
Qed.

Lemma bytes_value_bound bs :
  Forall is_byte bs -> (bytes_value bs < 256 ^ N.of_nat (length bs))%N.
Proof.
  induction 1 as [|b bs Hb _ IH].
  - vm_compute. reflexivity.
  - rewrite bytes_value_cons. cbn [length].
    rewrite Nat2N.inj_succ, N.pow_succ_r'. unfold is_byte in Hb. nia.
Qed.

Lemma bytes_value_inj bs1 bs2 :
  length bs1 = length bs2 -> Forall is_byte bs1 -> Forall is_byte bs2 ->
  bytes_value bs1 = bytes_value bs2 -> bs1 = bs2.
Proof.
  intros L H1. revert bs2 L. induction H1 as [|b1 bs1 Hb1 H1 IH];
    intros [|b2 bs2] L H2 E; try discriminate; [reflexivity|].
  inversion H2 as [|? ? Hb2 H2']; subst.
  injection L as L. rewrite !bytes_value_cons, L in E.
  pose proof (bytes_value_bound bs1 H1) as B1.
  pose proof (bytes_value_bound bs2 H2') as B2.
  rewrite L in B1.
  assert (b1 = b2) by nia. subst b2.
  f_equal. apply IH; [exact L | exact H2' | lia].
Qed.

Lemma oid_of_bytes_inj bs1 bs2 :
  length bs1 <= 12 -> length bs2 <= 12 ->
  Forall is_byte bs1 -> Forall is_byte bs2 ->
  oid_of_bytes bs1 = oid_of_bytes bs2 -> bs1 = bs2.
Proof.
  intros L1 L2 H1 H2 E.
  pose proof (bytes_value_bound bs1 H1) as B1.
  pose proof (bytes_value_bound bs2 H2) as B2.
  assert (P : forall n, n <= 12 -> (256 ^ N.of_nat n <= 2 ^ 96)%N).
  { intros n Hn. change (2 ^ 96)%N with (256 ^ N.of_nat 12)%N.
    apply N.pow_le_mono_r; lia. }
  pose proof (P _ L1). pose proof (P _ L2).
  assert (L : length bs1 = length bs2).
  { unfold oid_of_bytes in E.
    destruct (Nat.eqb_spec (length bs1) 12) as [e1|n1],
             (Nat.eqb_spec (length bs2) 12) as [e2|n2]; try lia; nia. }
  apply bytes_value_inj; try assumption.
  unfold oid_of_bytes in E. rewrite L in E.
  destruct (Nat.eqb (length bs2) 12); lia.
Qed.

Lemma fromhex_bytes s bs :
  fromhex s = Some bs -> Forall is_byte bs /\ 2 * length bs <= String.length s.
Proof.
  remember (String.length s) as n eqn:Hn.
  revert s bs Hn. induction n as [n IH] using lt_wf_ind. intros s bs Hn.
  destruct s as [|c s]; cbn [fromhex].
  - intros [= <-]. split; [constructor | simpl; lia].
  - destruct (is_ascii_space c).
    + intros E. simpl in Hn.
      assert (Hlt : String.length s < n) by (subst n; apply Nat.lt_succ_diag_r).
      destruct (IH (String.length s) Hlt s bs eq_refl E) as [F L].
      split; [exact F | simpl; lia].
    + destruct (hex_digit c) as [top|] eqn:Ht; [|discriminate].
      destruct s as [|c' s]; [discriminate|].
      destruct (hex_digit c') as [bot|] eqn:Hb; [|discriminate].
      destruct (fromhex s) as [bs'|] eqn:E; [|discriminate].
      intros [= <-]. simpl in Hn.
      assert (Hlt : String.length s < n) by (subst n; auto with arith).
      destruct (IH (String.length s) Hlt s bs' eq_refl E) as [F L].
      split; [|simpl; lia].
      constructor; [|exact F].
      assert (D : forall c d, hex_digit c = Some d -> (d < 16)%N).
      { intros c0 d. unfold hex_digit.
        repeat match goal with
               | |- context [if ?b then _ else _] => destruct b eqn:?
               end; intros [= <-];
          repeat match goal with
                 | h : _ && _ = true |- _ =>
                     apply andb_true_iff in h; destruct h
                 | h : (_ <=? _)%N = true |- _ => apply N.leb_le in h
                 end; lia. }
      pose proof (D _ _ Ht). pose proof (D _ _ Hb). unfold is_byte. lia.
Qed.

Lemma oid_of_str_bytes s1 s2 o :
  oid_of_str s1 = Some o -> oid_of_str s2 = Some o -> fromhex s1 = fromhex s2.
Proof.
  unfold oid_of_str.
  destruct (Nat.eqb_spec (String.length s1) 24) as [L1|]; [|discriminate].
  destruct (Nat.eqb_spec (String.length s2) 24) as [L2|]; [|discriminate].
  destruct (fromhex s1) as [b1|] eqn:E1; [|discriminate].
  destruct (fromhex s2) as [b2|] eqn:E2; [|discriminate].
  cbn. intros [= H1] [= H2].
  destruct (fromhex_bytes _ _ E1) as [F1 B1].
  destruct (fromhex_bytes _ _ E2) as [F2 B2].
  f_equal. apply oid_of_bytes_inj; try assumption; try lia; congruence.
Qed.

Lemma request_quiet ev w n :
  quiet (S n) w = true ->
  request ev w = (Return tt, sent ev w) /\ quiet n (sent ev w) = true.
Proof.
  unfold quiet, request, sent.
  destruct (faults w) as [|[] l]; simpl; try discriminate.
  - intros _. split; [reflexivity|]. now rewrite take_nil.
  - intros E. now split.
Qed.

Lemma find_one_quiet c k v w n :
  quiet (S n) w = true ->
  find_one c k v w
  = (Return (find (matches k v) (get_coll c (db w))), sent (EvFind c) w)
  /\ quiet n (sent (EvFind c) w) = true.
Proof.
  intros Q. destruct (request_quiet (EvFind c) w n Q) as [E Q'].
  split; [|exact Q'].
  unfold find_one. rewrite (bind_return _ _ _ _ _ E). reflexivity.
Qed.

Lemma found_matches k v l d :
  find (matches k v) l = Some d -> d !! k = Some v.
Proof.
  intros F. apply find_some in F as [_ F].
  unfold matches in F. now apply bool_decide_eq_true in F.
Qed.

Lemma found_truthy k v l d :
  find (matches k v) l = Some d -> truthy (Some d) = true.
Proof.
  intros F. apply found_matches in F. simpl.
  destruct (bool_decide (d = ∅)) eqn:E; [|reflexivity].
  apply bool_decide_eq_true in E. subst d. now rewrite lookup_empty in F.
Qed.

Lemma bson_ok_empty : bson_ok ∅ = true.
Proof. apply bool_decide_eq_true. apply map_Forall_empty. Qed.

Lemma bson_ok_insert k v (d : doc) :
  bson_value_ok v = true -> bson_ok d = true -> bson_ok (<[k := v]> d) = true.
Proof.
  unfold bson_ok. rewrite !bool_decide_eq_true. intros Hv Hd.
  now apply map_Forall_insert_2.
Qed.

Lemma insert_one_fresh c (d : doc) w n :
  d !! "_id" = None -> bson_ok d = true -> quiet (S n) w = true ->
  insert_one c d w
  = (Return (VOid (next_oid w)),
     mkWorld (set_coll c (get_coll c (db w)
                          ++ [<["_id" := VOid (next_oid w)]> d]) (db w))
             (N.succ (next_oid w)) (clock w) (tail (faults w))
             (trace w ++ [EvInsert c])).
Proof.
  intros Hid Hok Q. unfold insert_one. rewrite Hid.
  unfold bind at 1. unfold bind at 1. simpl.
  rewrite bson_ok_insert by (simpl; auto).
  set (w1 := mkWorld _ _ _ _ _).
  assert (Q1 : quiet (S n) w1 = true) by exact Q.
  destruct (request_quiet (EvInsert c) w1 n Q1) as [E _].
  rewrite (bind_return _ _ _ _ _ E). reflexivity.
Qed.

Lemma lift_return {A} (r : result A) a w :
  r = Return a -> lift r w = (Return a, w).
Proof. intros ->. reflexivity. Qed.

Lemma lift_raise {A} (r : result A) e w :
  r = Raise e -> lift r w = (Raise e, w).
Proof. intros ->. reflexivity. Qed.

Lemma try_except_run (m : M unit) w : try_except m w = (Return tt, (m w).2).
Proof. unfold try_except. now destruct (m w) as [[] ?]. Qed.

Lemma tail3_drop {A} (l : list A) : tail (tail (tail l)) = drop 3 l.
Proof. now destruct l as [|? [|? [|? ?]]]. Qed.

Lemma bson_ok_get (d : doc) k : bson_ok d = true -> bson_value_ok (dict_get d k) = true.
Proof.
  unfold bson_ok, dict_get. rewrite bool_decide_eq_true. intros Hd.
  destruct (d !! k) as [v|] eqn:E; [|reflexivity].
  exact (Hd k v E).
Qed.

Lemma find_replace_first p f (l : list doc) d :
  find p l = Some d -> p (f d) = true ->
  find p (replace_first p f l) = Some (f d).
Proof.
  induction l as [|x l IH]; simpl; [discriminate|].
  destruct (p x) eqn:E.
  - intros [= ->] Hf. simpl. now rewrite Hf.
  - intros F Hf. simpl. rewrite E. now apply IH.
Qed.

Lemma replace_first_absent p f (l : list doc) :
  find p l = None -> replace_first p f l = l.
Proof.
  induction l as [|x l IH]; simpl; [reflexivity|].
  destruct (p x); [discriminate|]. intros F. now rewrite IH.
Qed.

Lemma remove_first_absent p (l : list doc) :
  find p l = None -> remove_first p l = l.
Proof.
  induction l as [|x l IH]; simpl; [reflexivity|].
  destruct (p x); [discriminate|]. intros F. now rewrite IH.
Qed.

(** ** The stock decrement *)

Lemma inc_field_int k a (d : doc) n :
  d !! k = Some (VInt n) ->
  inc_field k a d = if int64 (n + a) then Return (<[k := VInt (n + a)]> d)
                    else Raise WriteError.
Proof. intros E. unfold inc_field. now rewrite E. Qed.

(** The decrement either rewrites the one product it found or leaves the
    database as it was. *)
Lemma decrement_stock_effect pid q prod w :
  find (by_id pid) (products (db w)) = Some prod ->
  match decrement_stock pid q w with
  | (Return _, w') =>
      exists prod', inc_field "stock" (- q) prod = Return prod'
        /\ db w' = set_coll Products
                     (replace_first (by_id pid) (fun _ => prod')
                                    (products (db w))) (db w)
  | (Raise _, w') => db w' = db w
  end.
Proof.
  intros F. unfold decrement_stock, update_one_inc.
  destruct (int64 (- q)); [|reflexivity].
  unfold bind, request.
  destruct (faults w) as [|[] l]; simpl; try reflexivity;
    rewrite F; destruct (inc_field "stock" (- q) prod) as [d'|e];
    simpl; try reflexivity; eauto.
Qed.

Lemma decrement_stock_others pid q w :
  let w' := (decrement_stock pid q w).2 in
  sales (db w') = sales (db w) /\ customers (db w') = customers (db w)
  /\ users (db w') = users (db w).
Proof.
  unfold decrement_stock, update_one_inc.
  destruct (int64 (- q)); [|now simpl].
  unfold bind, request.
  destruct (faults w) as [|[] l]; simpl; try easy;
    destruct (find (by_id pid) (products (db w))) as [d|]; simpl; try easy;
    destruct (inc_field "stock" (- q) d); simpl; easy.
Qed.

(** ** Recording a sale *)

Lemma quiet_S n w : quiet (S n) w = true -> quiet n w = true.
Proof.
  unfold quiet. generalize (faults w) as l.
  induction n as [|n IH]; intros [|a l]; simpl; auto.
  intros E. apply andb_prop in E as [-> E]. simpl. now apply IH.
Qed.

(** The two lookups that open [insert_sale], both answered: [Q] says that
    the next [S (S m)] requests are answered, [Q2] names what is left of it. *)
Ltac run_lookups pid cid Kp Kc Q m Q2 :=
  unfold insert_sale;
  rewrite (bind_return _ _ _ _ _ (ObjectId_known _ _ _ Kp));
  let E1 := fresh "E" in
  let Q1 := fresh "Q" in
  destruct (find_one_quiet Products "_id" (VOid pid) _ (S m) Q) as [E1 Q1];
  rewrite (bind_return _ _ _ _ _ E1);
  rewrite (bind_return _ _ _ _ _ (ObjectId_known _ _ _ Kc));
  let E2 := fresh "E" in
  destruct (find_one_quiet Customers "_id" (VOid cid) _ m Q1) as [E2 Q2];
  rewrite (bind_return _ _ _ _ _ E2);
  cbn [get_coll sent db];
  repeat match goal with
         | |- context [matches "_id" (VOid ?o)] =>
             change (matches "_id" (VOid o)) with (by_id o)
         end.

Section SaleProofs.
Context `{Literals}.

Lemma sale_doc_no_id pid pn cid cn q p t date :
  sale_doc pid pn cid cn q p t date !! "_id" = None.
Proof. unfold sale_doc. rewrite !lookup_insert_ne by done. apply lookup_empty. Qed.

Lemma sale_doc_bson_ok pid pn cid cn q p t date :
  bson_value_ok pn = true -> bson_value_ok cn = true -> int64 q = true ->
  bson_ok (sale_doc pid pn cid cn q p t date) = true.
Proof.
  intros Hp Hc Hq. unfold sale_doc.
  repeat (apply bson_ok_insert; [assumption || reflexivity|]).
  apply bson_ok_empty.
Qed.

(** A call whose references resolve and whose numbers are read runs up to
    the insertion of the sale, then attempts the decrement and returns the
    identifier of the sale whatever the decrement did. *)
Lemma insert_sale_run w pidv cidv qv pv date pid cid prod cust q p t :
  known_id pidv = Some pid -> known_id cidv = Some cid ->
  find (by_id pid) (products (db w)) = Some prod ->
  find (by_id cid) (customers (db w)) = Some cust ->
  py_int qv = Return q -> py_float pv = Return p ->
  mul_int_float q p = Return t ->
  bson_ok (sale_doc pid (dict_get prod "name") cid (dict_get cust "name")
                    q p t (default (clock w) date)) = true ->
  quiet 3 w = true ->
  insert_sale pidv cidv qv pv date w
  = (Return (VOid (next_oid w)),
     (decrement_stock pid q
        (sale_stored
           (<["_id" := VOid (next_oid w)]>
              (sale_doc pid (dict_get prod "name") cid (dict_get cust "name")
                        q p t (default (clock w) date))) w)).2).
Proof.
  intros Kp Kc Fp Fc Hq Hp Ht Hok Q.
  run_lookups pid cid Kp Kc Q 1%nat Q2.
  rewrite Fp, Fc.
  rewrite (found_truthy _ _ _ _ Fp), (found_truthy _ _ _ _ Fc).
  cbn [negb orb default].
  rewrite (bind_return _ _ _ _ _ (lift_return _ _ _ Hq)).
  rewrite (bind_return _ _ _ _ _ (lift_return _ _ _ Hp)).
  rewrite (bind_return _ _ _ _ _ (lift_return _ _ _ Ht)).
  set (w2 := sent (EvFind Customers) (sent (EvFind Products) w)) in *.
  assert (Ed : (match date with Some t0 => ret t0 | None => utcnow end) w2
               = (Return (default (clock w) date), w2))
    by (destruct date; reflexivity).
  rewrite (bind_return _ _ _ _ _ Ed).
  rewrite (bind_return _ _ _ _ _ (ObjectId_known _ _ _ Kp)).
  rewrite (bind_return _ _ _ _ _ (ObjectId_known _ _ _ Kc)).
  rewrite (bind_return _ _ _ _ _
             (insert_one_fresh Sales _ w2 0 (sale_doc_no_id _ _ _ _ _ _ _ _)
                               Hok Q2)).
  unfold bind at 1. rewrite try_except_run.
  rewrite (bind_return _ _ _ _ _ (ObjectId_known _ _ _ Kp)).
  unfold ret, decrement_stock, sale_stored. subst w2.
  cbn [sent db next_oid clock faults trace get_coll set_coll sales users
       products customers].
  rewrite tail3_drop, <- !app_assoc. reflexivity.
Qed.

Lemma sale_doc_encodable pid (prod : doc) cid (cust : doc) q p t date :
  bson_ok prod = true -> bson_ok cust = true -> int64 q = true ->
  bson_ok (sale_doc pid (dict_get prod "name") cid (dict_get cust "name")
                    q p t date) = true.
Proof.
  intros Hp Hc Hq. apply sale_doc_bson_ok; auto using bson_ok_get.
Qed.

Lemma insert_sale_sales w pidv cidv qv pv date pid cid prod cust q p t :
  known_id pidv = Some pid -> known_id cidv = Some cid ->
  find (by_id pid) (products (db w)) = Some prod ->
  find (by_id cid) (customers (db w)) = Some cust ->
  bson_ok prod = true -> bson_ok cust = true ->
  py_int qv = Return q -> py_float pv = Return p ->
  mul_int_float q p = Return t -> int64 q = true -> quiet 3 w = true ->
  exists w',
    insert_sale pidv cidv qv pv date w = (Return (VOid (next_oid w)), w')
    /\ sales (db w')
       = sales (db w)
         ++ [<["_id" := VOid (next_oid w)]>
               (sale_doc pid (dict_get prod "name") cid (dict_get cust "name")
                         q p t (default (clock w) date))].
Proof.
  intros Kp Kc Fp Fc Bp Bc Hq Hp Ht Hi Q.
  eexists. split.
  - apply (insert_sale_run w pidv cidv qv pv date pid cid prod cust q p t);
      auto using sale_doc_encodable.
  - match goal with |- sales (db (decrement_stock ?a ?b ?c).2) = _ =>
      destruct (decrement_stock_others a b c) as [E _]; rewrite E end.
    reflexivity.
Qed.

(** C1. A sale recorded for a product and a customer that resolve is stored
    with [total = quantity * unit_price], where the unit price is the one
    the caller gave: the stored price of the product plays no part. *)
Theorem insert_sale_total w pidv cidv qv pv date pid cid prod cust q p fq :
  known_id pidv = Some pid -> known_id cidv = Some cid ->
  find (by_id pid) (products (db w)) = Some prod ->
  find (by_id cid) (customers (db w)) = Some cust ->
  bson_ok prod = true -> bson_ok cust = true ->
  py_int qv = Return q -> py_float pv = Return p ->
  float_of_int q = Return fq -> int64 q = true -> quiet 3 w = true ->
  exists sale w',
    insert_sale pidv cidv qv pv date w = (Return (VOid (next_oid w)), w')
    /\ sales (db w') = sales (db w) ++ [sale]
    /\ sale !! "_id" = Some (VOid (next_oid w))
    /\ sale !! "quantity" = Some (VInt q)
    /\ sale !! "unit_price" = Some (VFloat p)
    /\ sale !! "total" = Some (VFloat (SFmul prec emax fq p)).
Proof.
  intros Kp Kc Fp Fc Bp Bc Hq Hp Hf Hi Q.
  assert (Ht : mul_int_float q p = Return (SFmul prec emax fq p))
    by (unfold mul_int_float; now rewrite Hf).
  destruct (insert_sale_sales w pidv cidv qv pv date pid cid prod cust q p _
              Kp Kc Fp Fc Bp Bc Hq Hp Ht Hi Q) as (w' & E & S).
  eexists _, w'. split; [exact E|]. split; [exact S|].
  unfold sale_doc. split_and!.
  - apply lookup_insert_eq.
  - rewrite !lookup_insert_ne by done. apply lookup_insert_eq.
  - rewrite !lookup_insert_ne by done. apply lookup_insert_eq.
  - rewrite !lookup_insert_ne by done. apply lookup_insert_eq.
Qed.

(** C2. When the product or the customer does not resolve, the call fails
    with [InvalidReference] and the database is left as it was: no sale is
    stored and no stock changes. *)
Theorem insert_sale_invalid_reference w pidv cidv qv pv date pid cid :
  known_id pidv = Some pid -> known_id cidv = Some cid ->
  quiet 2 w = true ->
  find (by_id pid) (products (db w)) = None
  \/ find (by_id cid) (customers (db w)) = None ->
  exists w',
    insert_sale pidv cidv qv pv date w = (Raise InvalidReference, w')
    /\ db w' = db w.
Proof.
  intros Kp Kc Q Hnone.
  run_lookups pid cid Kp Kc Q 0%nat Q2.
  assert (T : negb (truthy (find (by_id pid) (products (db w))))
              || negb (truthy (find (by_id cid) (customers (db w)))) = true).
  { destruct Hnone as [-> | ->]; simpl; [reflexivity|apply orb_true_r]. }
  rewrite T. eexists. split; reflexivity.
Qed.

(** C3. Once the sale is stored the decrement is attempted on the world
    that holds the sale.  When it succeeds, the stock of the product goes
    from [n] to [n - quantity] and nothing else changes; when it fails, the
    failure is swallowed: the call still returns the identifier of the sale,
    the sale is stored and the products are as they were. *)
Theorem insert_sale_best_effort_decrement
    w pidv cidv qv pv date pid cid prod cust q p t n :
  known_id pidv = Some pid -> known_id cidv = Some cid ->
  find (by_id pid) (products (db w)) = Some prod ->
  find (by_id cid) (customers (db w)) = Some cust ->
  bson_ok prod = true -> bson_ok cust = true ->
  prod !! "stock" = Some (VInt n) ->
  py_int qv = Return q -> py_float pv = Return p ->
  mul_int_float q p = Return t -> int64 q = true -> quiet 3 w = true ->
  let sale := <["_id" := VOid (next_oid w)]>
                (sale_doc pid (dict_get prod "name") cid
                          (dict_get cust "name") q p t
                          (default (clock w) date)) in
  exists w',
    insert_sale pidv cidv qv pv date w = (Return (VOid (next_oid w)), w')
    /\ sales (db w') = sales (db w) ++ [sale]
    /\ match (decrement_stock pid q (sale_stored sale w)).1 with
       | Return _ =>
           products (db w')
           = replace_first (by_id pid)
               (fun _ => <["stock" := VInt (n - q)]> prod) (products (db w))
           /\ find (by_id pid) (products (db w'))
              = Some (<["stock" := VInt (n - q)]> prod)
       | Raise _ => products (db w') = products (db w)
       end.
Proof.
  intros Kp Kc Fp Fc Bp Bc Hs Hq Hp Ht Hi Q sale.
  destruct (insert_sale_sales w pidv cidv qv pv date pid cid prod cust q p t
              Kp Kc Fp Fc Bp Bc Hq Hp Ht Hi Q) as (w' & E & S).
  exists w'. split; [exact E|]. split; [exact S|].
  rewrite (insert_sale_run w pidv cidv qv pv date pid cid prod cust q p t)
    in E by auto using sale_doc_encodable.
  injection E as <-. fold sale.
  assert (F1 : find (by_id pid) (products (db (sale_stored sale w)))
               = Some prod) by exact Fp.
  pose proof (decrement_stock_effect pid q prod _ F1) as D.
  destruct (decrement_stock pid q (sale_stored sale w)) as [[[]|e] w2];
    cbn [fst snd].
  - destruct D as (prod' & I & ->).
    rewrite (inc_field_int _ _ _ _ Hs) in I.
    destruct (int64 (n + - q)); [|discriminate].
    injection I as <-. rewrite Z.add_opp_r.
    cbn [set_coll products sale_stored db]. split; [reflexivity|].
    apply (find_replace_first (by_id pid)
             (fun _ => <["stock" := VInt (n - q)]> prod) _ prod Fp).
    unfold by_id, matches. apply bool_decide_eq_true.
    rewrite lookup_insert_ne by done. exact (found_matches _ _ _ _ Fp).
  - now rewrite D.
Qed.

Lemma sale_doc_not_encodable o pid pn cid cn q p t date :
  int64 q = false ->
  bson_ok (<["_id" := VOid o]> (sale_doc pid pn cid cn q p t date)) = false.
Proof.
  intros Hq. unfold bson_ok. apply bool_decide_eq_false. intros HF.
  assert (L : (<["_id" := VOid o]> (sale_doc pid pn cid cn q p t date))
              !! "quantity" = Some (VInt q)).
  { unfold sale_doc. rewrite !lookup_insert_ne by done.
    apply lookup_insert_eq. }
  specialize (HF _ _ L). cbn [bson_value_ok] in HF. congruence.
Qed.

Lemma insert_one_not_encodable c (d : doc) w :
  d !! "_id" = None ->
  bson_ok (<["_id" := VOid (next_oid w)]> d) = false ->
  exists w', insert_one c d w = (Raise OverflowError, w') /\ db w' = db w.
Proof.
  intros Hid Hok. unfold insert_one. rewrite Hid.
  unfold bind at 1. unfold bind at 1. cbn [fresh_oid ret].
  rewrite Hok. eexists. split; reflexivity.
Qed.

(** C4 (as the program has it). The quantity goes through [int()] and the
    unit price through [float()], after both references have resolved.  A
    value that [int()] or [float()] rejects makes the call fail with the
    error of the conversion (a [ValueError], a [TypeError] or an
    [OverflowError]) and the database is left as it was.  No sign is
    checked: a quantity and a unit price that are read are stored in a
    sale, with their product, whatever their signs, when the product can be
    computed and the quantity can be encoded on 8 bytes.  A quantity too
    large to be converted to a float makes the multiplication fail, and one
    that cannot be encoded makes the insertion fail, with an
    [OverflowError]: the database is left as it was. *)
Theorem insert_sale_coercion w pidv cidv qv pv date pid cid prod cust :
  known_id pidv = Some pid -> known_id cidv = Some cid ->
  find (by_id pid) (products (db w)) = Some prod ->
  find (by_id cid) (customers (db w)) = Some cust ->
  bson_ok prod = true -> bson_ok cust = true ->
  quiet 3 w = true ->
  (forall e, py_int qv = Raise e ->
     exists w', insert_sale pidv cidv qv pv date w = (Raise e, w')
                /\ db w' = db w)
  /\ (forall q e, py_int qv = Return q -> py_float pv = Raise e ->
        exists w', insert_sale pidv cidv qv pv date w = (Raise e, w')
                   /\ db w' = db w)
  /\ (forall q p t, py_int qv = Return q -> py_float pv = Return p ->
        mul_int_float q p = Return t -> int64 q = true ->
        exists sale w',
          insert_sale pidv cidv qv pv date w
          = (Return (VOid (next_oid w)), w')
          /\ sales (db w') = sales (db w) ++ [sale]
          /\ sale !! "quantity" = Some (VInt q)
          /\ sale !! "unit_price" = Some (VFloat p)
          /\ sale !! "total" = Some (VFloat t))
  /\ (forall q p e, py_int qv = Return q -> py_float pv = Return p ->
        mul_int_float q p = Raise e ->
        e = OverflowError
        /\ exists w', insert_sale pidv cidv qv pv date w = (Raise e, w')
                      /\ db w' = db w)
  /\ (forall q p t, py_int qv = Return q -> py_float pv = Return p ->
        mul_int_float q p = Return t -> int64 q = false ->
        exists w',
          insert_sale pidv cidv qv pv date w = (Raise OverflowError, w')
          /\ db w' = db w).
Proof.
  intros Kp Kc Fp Fc Bp Bc Q.
  pose proof (quiet_S _ _ Q) as Q'.
  split_and!.
  - intros e He. run_lookups pid cid Kp Kc Q' 0%nat Q2.
    rewrite Fp, Fc.
    rewrite (found_truthy _ _ _ _ Fp), (found_truthy _ _ _ _ Fc).
    cbn [negb orb].
    rewrite (bind_raise _ _ _ _ _ (lift_raise _ _ _ He)).
    eexists. split; reflexivity.
  - intros q e Hq He. run_lookups pid cid Kp Kc Q' 0%nat Q2.
    rewrite Fp, Fc.
    rewrite (found_truthy _ _ _ _ Fp), (found_truthy _ _ _ _ Fc).
    cbn [negb orb].
    rewrite (bind_return _ _ _ _ _ (lift_return _ _ _ Hq)).
    rewrite (bind_raise _ _ _ _ _ (lift_raise _ _ _ He)).
    eexists. split; reflexivity.
  - intros q p t Hq Hp Ht Hi.
    destruct (insert_sale_sales w pidv cidv qv pv date pid cid prod cust q p t
                Kp Kc Fp Fc Bp Bc Hq Hp Ht Hi Q) as (w' & E & S).
    eexists _, w'. split; [exact E|]. split; [exact S|].
    unfold sale_doc. split_and!.
    + rewrite !lookup_insert_ne by done. apply lookup_insert_eq.
    + rewrite !lookup_insert_ne by done. apply lookup_insert_eq.
    + rewrite !lookup_insert_ne by done. apply lookup_insert_eq.
  - intros q p e Hq Hp He. split.
    + unfold mul_int_float, float_of_int in He.
      destruct (float_of_Z q); congruence.
    + run_lookups pid cid Kp Kc Q' 0%nat Q2.
      rewrite Fp, Fc.
      rewrite (found_truthy _ _ _ _ Fp), (found_truthy _ _ _ _ Fc).
      cbn [negb orb].
      rewrite (bind_return _ _ _ _ _ (lift_return _ _ _ Hq)).
      rewrite (bind_return _ _ _ _ _ (lift_return _ _ _ Hp)).
      rewrite (bind_raise _ _ _ _ _ (lift_raise _ _ _ He)).
      eexists. split; reflexivity.
  - intros q p t Hq Hp Ht Hi. run_lookups pid cid Kp Kc Q' 0%nat Q2.
    rewrite Fp, Fc.
    rewrite (found_truthy _ _ _ _ Fp), (found_truthy _ _ _ _ Fc).
    cbn [negb orb default].
    rewrite (bind_return _ _ _ _ _ (lift_return _ _ _ Hq)).
    rewrite (bind_return _ _ _ _ _ (lift_return _ _ _ Hp)).
    rewrite (bind_return _ _ _ _ _ (lift_return _ _ _ Ht)).
    set (w2 := sent (EvFind Customers) (sent (EvFind Products) w)) in *.
    assert (Ed : (match date with Some t0 => ret t0 | None => utcnow end) w2
                 = (Return (default (clock w) date), w2))
      by (destruct date; reflexivity).
    rewrite (bind_return _ _ _ _ _ Ed).
    rewrite (bind_return _ _ _ _ _ (ObjectId_known _ _ _ Kp)).
    rewrite (bind_return _ _ _ _ _ (ObjectId_known _ _ _ Kc)).
    match goal with
    | |- context [insert_one Sales ?d] =>
        destruct (insert_one_not_encodable Sales d w2
                    (sale_doc_no_id _ _ _ _ _ _ _ _)
                    (sale_doc_not_encodable _ _ _ _ _ _ _ _ _ Hi))
          as (w' & Ei & Di)
    end.
    rewrite (bind_raise _ _ _ _ _ Ei).
    exists w'. split; [reflexivity|]. rewrite Di. reflexivity.
Qed.

End SaleProofs.

(** The caller's price (10) is used, not the stored one (299). *)
Lemma insert_sale_total_witness :
  exists sale w',
    @insert_sale plain_literals (VOid 1%N) (VOid 2%N) (VInt 3)
                 (VFloat (float_of_Z 10)) None shop
    = (Return (VOid (next_oid shop)), w')
    /\ sales (db w') = sales (db shop) ++ [sale]
    /\ sale !! "_id" = Some (VOid (next_oid shop))
    /\ sale !! "quantity" = Some (VInt 3)
    /\ sale !! "unit_price" = Some (VFloat (float_of_Z 10))
    /\ sale !! "total"
       = Some (VFloat (SFmul prec emax (float_of_Z 3) (float_of_Z 10))).
Proof.
  apply (@insert_sale_total plain_literals shop (VOid 1%N) (VOid 2%N)
           (VInt 3) (VFloat (float_of_Z 10)) None 1%N 2%N tshirt amit
           3%Z (float_of_Z 10) (float_of_Z 3));
    vm_compute; reflexivity.
Defined.

Lemma insert_sale_invalid_reference_witness :
  exists w',
    @insert_sale plain_literals (VOid 7%N) (VOid 2%N) (VInt 3)
                 (VFloat (float_of_Z 10)) None shop
    = (Raise InvalidReference, w')
    /\ db w' = db shop.
Proof.
  apply (@insert_sale_invalid_reference plain_literals shop (VOid 7%N)
           (VOid 2%N) (VInt 3) (VFloat (float_of_Z 10)) None 7%N 2%N);
    [reflexivity | reflexivity | reflexivity | left; vm_compute; reflexivity].
Defined.

Lemma insert_sale_best_effort_decrement_witness :
  let sale := <["_id" := VOid (next_oid shop)]>
                (sale_doc 1%N (dict_get tshirt "name") 2%N
                          (dict_get amit "name") 2 (float_of_Z 299)
                          (float_of_Z 598) (default (clock shop) None)) in
  exists w',
    @insert_sale plain_literals (VOid 1%N) (VOid 2%N) (VInt 2)
                 (VFloat (float_of_Z 299)) None shop
    = (Return (VOid (next_oid shop)), w')
    /\ sales (db w') = sales (db shop) ++ [sale]
    /\ match (decrement_stock 1%N 2 (sale_stored sale shop)).1 with
       | Return _ =>
           products (db w')
           = replace_first (by_id 1%N)
               (fun _ => <["stock" := VInt (100 - 2)]> tshirt)
               (products (db shop))
           /\ find (by_id 1%N) (products (db w'))
              = Some (<["stock" := VInt (100 - 2)]> tshirt)
       | Raise _ => products (db w') = products (db shop)
       end.
Proof.
  apply (@insert_sale_best_effort_decrement plain_literals shop (VOid 1%N)
           (VOid 2%N) (VInt 2) (VFloat (float_of_Z 299)) None 1%N 2%N
           tshirt amit 2%Z (float_of_Z 299) (float_of_Z 598) 100%Z);
    vm_compute; reflexivity.
Defined.

(** The two ways the decrement fails.  The store does not answer the fourth
    request: the sale is stored, 100 shirts are still in stock. *)
Example insert_sale_decrement_unanswered :
  let w := mkWorld (db shop) 10%N 0%Z [false; false; false; true] [] in
  let r := @insert_sale plain_literals (VOid 1%N) (VOid 2%N) (VInt 2)
                        (VFloat (float_of_Z 299)) None w in
  r.1 = Return (VOid 10%N)
  /\ length (sales (db r.2)) = 1%nat
  /\ products (db r.2) = [tshirt].
Proof. vm_compute. repeat split. Qed.

(** The stock of the product is not a number: the store rejects [$inc]. *)
Example insert_sale_decrement_rejected :
  let w := mkWorld (mkDB [] [<["stock" := VStr "many"]> tshirt] [amit] [])
                   10%N 0%Z [] [] in
  let r := @insert_sale plain_literals (VOid 1%N) (VOid 2%N) (VInt 2)
                        (VFloat (float_of_Z 299)) None w in
  r.1 = Return (VOid 10%N)
  /\ length (sales (db r.2)) = 1%nat
  /\ products (db r.2) = [<["stock" := VStr "many"]> tshirt].
Proof. vm_compute. repeat split. Qed.

(** The scenario of the specification: two shirts at 299 make a sale of
    598.0 and leave 98 in stock. *)
Example insert_sale_scenario :
  let r := @insert_sale plain_literals (VOid 1%N) (VOid 2%N) (VInt 2)
                        (VFloat (float_of_Z 299)) None shop in
  (fun d : doc => d !! "total") <$> sales (db r.2)
  = [Some (VFloat (float_of_Z 598))]
  /\ (fun d : doc => d !! "stock") <$> products (db r.2) = [Some (VInt 98)].
Proof. vm_compute. repeat split. Qed.

(** The same scenario from an empty store, the product and the customer
    being inserted first. *)
Example insert_sale_from_scratch :
  let r1 := @insert_product plain_literals (VStr "T-Shirt") (VStr "TSH-001")
              (VInt 299) (VInt 100) (VStr "") empty_world in
  let r2 := insert_customer (VStr "Amit") (VStr "") (VStr "") (VStr "") r1.2 in
  let r3 := match r1.1, r2.1 with
            | Return p, Return c =>
                @insert_sale plain_literals p c (VInt 2)
                             (VFloat (float_of_Z 299)) None r2.2
            | _, _ => (Raise TypeError, r2.2)
            end in
  r3.1 = Return (VOid 2%N)
  /\ (fun d : doc => (d !! "product_name", d !! "customer_name", d !! "total"))
       <$> sales (db r3.2)
     = [(Some (VStr "T-Shirt"), Some (VStr "Amit"),
         Some (VFloat (float_of_Z 598)))]
  /\ (fun d : doc => (d !! "price", d !! "stock")) <$> products (db r3.2)
     = [(Some (VFloat (float_of_Z 299)), Some (VInt 98))].
Proof. vm_compute. repeat split. Qed.

(** The theorem at work in the shop: a quantity and a price that are not
    read, a negative quantity at a negative price, a quantity too large for
    a float and one too large for the store. *)
Lemma insert_sale_coercion_witness :
  (exists w',
     @insert_sale plain_literals (VOid 1%N) (VOid 2%N) (VStr "two")
                  (VFloat (float_of_Z 299)) None shop
     = (Raise InvalidLiteral, w')
     /\ db w' = db shop)
  /\ (exists w',
        @insert_sale plain_literals (VOid 1%N) (VOid 2%N) (VInt 2) VNone
                     None shop
        = (Raise TypeError, w')
        /\ db w' = db shop)
  /\ (exists sale w',
        @insert_sale plain_literals (VOid 1%N) (VOid 2%N) (VInt (-2))
                     (VFloat (float_of_Z (-5))) None shop
        = (Return (VOid (next_oid shop)), w')
        /\ sales (db w') = sales (db shop) ++ [sale]
        /\ sale !! "quantity" = Some (VInt (-2))
        /\ sale !! "unit_price" = Some (VFloat (float_of_Z (-5)))
        /\ sale !! "total" = Some (VFloat (float_of_Z 10)))
  /\ (exists w',
        @insert_sale plain_literals (VOid 1%N) (VOid 2%N) (VInt (2 ^ 1024))
                     (VFloat (float_of_Z 299)) None shop
        = (Raise OverflowError, w')
        /\ db w' = db shop)
  /\ (exists w',
        @insert_sale plain_literals (VOid 1%N) (VOid 2%N) (VInt (2 ^ 63))
                     (VFloat (float_of_Z 299)) None shop
        = (Raise OverflowError, w')
        /\ db w' = db shop).
Proof.
  split_and!.
  - destruct (@insert_sale_coercion plain_literals shop (VOid 1%N) (VOid 2%N)
                (VStr "two") (VFloat (float_of_Z 299)) None 1%N 2%N
                tshirt amit) as (T & _); [vm_compute; reflexivity ..|].
    apply T. reflexivity.
  - destruct (@insert_sale_coercion plain_literals shop (VOid 1%N) (VOid 2%N)
                (VInt 2) VNone None 1%N 2%N tshirt amit)
      as (_ & T & _); [vm_compute; reflexivity ..|].
    apply (T 2%Z); reflexivity.
  - destruct (@insert_sale_coercion plain_literals shop (VOid 1%N) (VOid 2%N)
                (VInt (-2)) (VFloat (float_of_Z (-5))) None 1%N 2%N
                tshirt amit)
      as (_ & _ & T & _); [vm_compute; reflexivity ..|].
    apply (T (-2)%Z (float_of_Z (-5))); vm_compute; reflexivity.
  - destruct (@insert_sale_coercion plain_literals shop (VOid 1%N) (VOid 2%N)
                (VInt (2 ^ 1024)) (VFloat (float_of_Z 299)) None 1%N 2%N
                tshirt amit)
      as (_ & _ & _ & T & _); [vm_compute; reflexivity ..|].
    destruct (T (2 ^ 1024)%Z (float_of_Z 299) OverflowError) as [_ X];
      [vm_compute; reflexivity ..| exact X].
  - destruct (@insert_sale_coercion plain_literals shop (VOid 1%N) (VOid 2%N)
                (VInt (2 ^ 63)) (VFloat (float_of_Z 299)) None 1%N 2%N
                tshirt amit)
      as (_ & _ & _ & _ & T); [vm_compute; reflexivity ..|].
    apply (T (2 ^ 63)%Z (float_of_Z 299)
             (SFmul prec emax (float_of_Z (2 ^ 63)) (float_of_Z 299)));
      vm_compute; reflexivity.
Defined.

(** A quantity of -2 at a unit price of -5 is recorded like any other
    sale: nothing checks the signs. *)
Lemma insert_sale_records_negative_numbers :
  let r := @insert_sale plain_literals (VOid 1%N) (VOid 2%N) (VInt (-2))
                        (VFloat (float_of_Z (-5))) None shop in
  (-2 <= 0)%Z
  /\ SFltb (float_of_Z (-5)) (S754_zero false) = true
  /\ r.1 = Return (VOid 10%N)
  /\ (fun d : doc => (d !! "quantity", d !! "unit_price", d !! "total"))
       <$> sales (db r.2)
     = [(Some (VInt (-2)), Some (VFloat (float_of_Z (-5))),
         Some (VFloat (float_of_Z 10)))].
Proof. vm_compute. repeat split; discriminate. Qed.

(** ** Users and logging in *)

Lemma user_doc_no_id name username password role :
  user_doc name username password role !! "_id" = None.
Proof. unfold user_doc. rewrite !lookup_insert_ne by done. apply lookup_empty. Qed.

Lemma user_doc_bson_ok name username password role :
  bson_ok (user_doc name username password role) = true.
Proof.
  unfold user_doc. repeat (apply bson_ok_insert; [reflexivity|]).
  apply bson_ok_empty.
Qed.

Lemma create_user_duplicate w name username password role d :
  quiet 2 w = true ->
  find (matches "username" (VStr username)) (users (db w)) = Some d ->
  exists w',
    create_user name username password role w = (Raise DuplicateUsername, w')
    /\ db w' = db w.
Proof.
  intros Q F.
  destruct (find_one_quiet Users "username" (VStr username) w 1 Q) as [E Q1].
  unfold create_user. rewrite (bind_return _ _ _ _ _ E). cbn [get_coll].
  rewrite F, (found_truthy _ _ _ _ F).
  eexists. split; reflexivity.
Qed.

Lemma create_user_fresh w name username password role :
  quiet 2 w = true ->
  find (matches "username" (VStr username)) (users (db w)) = None ->
  exists w',
    create_user name username password role w
    = (Return (VOid (next_oid w)), w')
    /\ db w'
       = set_coll Users
           (users (db w)
            ++ [<["_id" := VOid (next_oid w)]>
                  (user_doc name username password role)]) (db w).
Proof.
  intros Q F.
  destruct (find_one_quiet Users "username" (VStr username) w 1 Q) as [E Q1].
  unfold create_user. rewrite (bind_return _ _ _ _ _ E). cbn [get_coll].
  rewrite F. cbn [truthy].
  rewrite (insert_one_fresh Users _ _ 0 (user_doc_no_id _ _ _ _)
             (user_doc_bson_ok _ _ _ _) Q1).
  eexists. split; reflexivity.
Qed.

Lemma find_last_matches (p : doc -> bool) (l : list doc) d :
  find p l = None -> p d = true -> find p (l ++ [d]) = Some d.
Proof.
  intros F P. induction l as [|x l IH]; cbn [find app] in *.
  - now rewrite P.
  - destruct (p x); [discriminate | now apply IH].
Qed.

Lemma user_doc_fields name username password role k :
  user_doc name username password role !! k <> None ->
  k = "name" \/ k = "username" \/ k = "password" \/ k = "role".
Proof.
  unfold user_doc. intros Hk.
  destruct (decide (k = "name")) as [|N1]; [tauto|].
  destruct (decide (k = "username")) as [|N2]; [tauto|].
  destruct (decide (k = "password")) as [|N3]; [tauto|].
  destruct (decide (k = "role")) as [|N4]; [tauto|].
  exfalso. apply Hk.
  rewrite !lookup_insert_ne by congruence. apply lookup_empty.
Qed.

(** C5. A username that is already stored makes [create_user] fail with
    [DuplicateUsername] and leaves the database, and so the number of
    users, as it was.  A username that is not stored yet makes it append one
    user and return the new identifier: the record has that identifier, the
    name, the username, the password and the role that were given, and no
    other field; the other collections are as they were, and a later call
    with the same username is refused. *)
Theorem create_user_duplicate_or_fresh w name username password role :
  quiet 2 w = true ->
  (forall d,
     find (matches "username" (VStr username)) (users (db w)) = Some d ->
     exists w',
       create_user name username password role w
       = (Raise DuplicateUsername, w')
       /\ db w' = db w
       /\ length (users (db w')) = length (users (db w)))
  /\ (find (matches "username" (VStr username)) (users (db w)) = None ->
      exists w' new,
        create_user name username password role w
        = (Return (VOid (next_oid w)), w')
        /\ users (db w') = users (db w) ++ [new]
        /\ new !! "_id" = Some (VOid (next_oid w))
        /\ new !! "name" = Some (VStr name)
        /\ new !! "username" = Some (VStr username)
        /\ new !! "password" = Some (VStr password)
        /\ new !! "role" = Some (VStr role)
        /\ (forall k, new !! k <> None ->
                      k = "_id" \/ k = "name" \/ k = "username"
                      \/ k = "password" \/ k = "role")
        /\ products (db w') = products (db w)
        /\ customers (db w') = customers (db w)
        /\ sales (db w') = sales (db w)
        /\ (forall name' password' role',
              quiet 2 w' = true ->
              exists w'',
                create_user name' username password' role' w'
                = (Raise DuplicateUsername, w'')
                /\ db w'' = db w')).
Proof.
  intros Q. split.
  - intros d F.
    destruct (create_user_duplicate w name username password role d Q F)
      as (w' & E & D).
    exists w'. split; [exact E|]. split; [exact D | now rewrite D].
  - intros F.
    destruct (create_user_fresh w name username password role Q F)
      as (w' & E & D).
    exists w', (<["_id" := VOid (next_oid w)]>
                  (user_doc name username password role)).
    split; [exact E|].
    split_and!; try (rewrite D; reflexivity);
      try (unfold user_doc; rewrite ?lookup_insert_ne by done;
           apply lookup_insert_eq).
    + intros k Hk. destruct (decide (k = "_id")) as [|Hne]; [now left|].
      right. rewrite lookup_insert_ne in Hk by congruence.
      now apply user_doc_fields in Hk.
    + intros name' password' role' Q'.
      apply (create_user_duplicate w' name' username password' role'
               (<["_id" := VOid (next_oid w)]>
                  (user_doc name username password role)) Q').
      rewrite D. cbn [set_coll users].
      apply find_last_matches; [exact F|].
      unfold matches. apply bool_decide_eq_true. reflexivity.
Qed.

Lemma verify_credentials_run username password w :
  quiet 1 w = true ->
  verify_credentials username password w
  = (Return match find (matches "username" (VStr username)) (users (db w)) with
            | Some d => if get_eq_str d "password" password then Some d
                        else None
            | None => None
            end,
     sent (EvFind Users) w).
Proof.
  intros Q. unfold verify_credentials, fetch_user_by_username.
  destruct (find_one_quiet Users "username" (VStr username) w 0 Q) as [E _].
  rewrite (bind_return _ _ _ _ _ E). cbn [get_coll].
  destruct (find _ _) as [d|] eqn:F; [|reflexivity].
  rewrite (found_truthy _ _ _ _ F). cbn [negb from_option id].
  now destruct (get_eq_str d "password" password).
Qed.

(** C6. With the right password, a claimed role that differs from the stored
    one gives the role notice, which is not the notice for wrong credentials,
    and leaves the session as it was; the stored role gives the welcome and
    opens the session.  [verify_credentials] returns [None] for a username
    that is not stored and for a password that differs from the stored one. *)
Theorem log_in_outcomes w username password role_choice st :
  quiet 1 w = true ->
  (forall d stored,
     find (matches "username" (VStr (strip username))) (users (db w)) = Some d ->
     d !! "password" = Some (VStr password) ->
     d !! "role" = Some (VStr stored) ->
     (stored <> role_choice ->
      (log_in username password role_choice st w).1
      = Return (RoleMismatch role_choice, st))
     /\ (stored = role_choice ->
         (log_in username password role_choice st w).1
         = Return (Welcome, mkSession true (Some d))))
  /\ RoleMismatch role_choice <> InvalidCredentials
  /\ (find (matches "username" (VStr username)) (users (db w)) = None ->
      (verify_credentials username password w).1 = Return None)
  /\ (forall d,
        find (matches "username" (VStr username)) (users (db w)) = Some d ->
        d !! "password" <> Some (VStr password) ->
        (verify_credentials username password w).1 = Return None)
  /\ (forall d,
        find (matches "username" (VStr username)) (users (db w)) = Some d ->
        d !! "password" = Some (VStr password) ->
        (verify_credentials username password w).1 = Return (Some d)).
Proof.
  intros Q. split_and!.
  - intros d stored F Hp Hr. unfold log_in.
    rewrite (bind_return _ _ _ _ _ (verify_credentials_run _ _ _ Q)).
    assert (Hpw : get_eq_str d "password" password = true)
      by (unfold get_eq_str; rewrite Hp; now apply bool_decide_eq_true).
    rewrite F, Hpw.
    rewrite (found_truthy _ _ _ _ F). cbn [negb from_option id].
    unfold get_ne_str, get_eq_str. rewrite Hr. split.
    + intros Hne. now rewrite bool_decide_false.
    + intros Heq. now rewrite bool_decide_true.
  - discriminate.
  - intros F. rewrite (verify_credentials_run _ _ _ Q). now rewrite F.
  - intros d F Hp. rewrite (verify_credentials_run _ _ _ Q). rewrite F.
    unfold get_eq_str. destruct (d !! "password") as [[]|]; try reflexivity.
    rewrite bool_decide_false; [reflexivity|]. intros ->. now apply Hp.
  - intros d F Hp. rewrite (verify_credentials_run _ _ _ Q). rewrite F.
    unfold get_eq_str. rewrite Hp. now rewrite bool_decide_true.
Qed.

(** The theorem at work in the shop: the username of the administrator
    is taken, the username riya is not. *)
Lemma create_user_duplicate_or_fresh_witness :
  (exists w',
     create_user "Someone" "admin" "pw" "user" shop
     = (Raise DuplicateUsername, w')
     /\ db w' = db shop
     /\ length (users (db w')) = length (users (db shop)))
  /\ (exists w' new,
        create_user "Riya Sharma" "riya" "pw1" "user" shop
        = (Return (VOid (next_oid shop)), w')
        /\ users (db w') = users (db shop) ++ [new]
        /\ new !! "_id" = Some (VOid (next_oid shop))
        /\ new !! "name" = Some (VStr "Riya Sharma")
        /\ new !! "username" = Some (VStr "riya")
        /\ new !! "password" = Some (VStr "pw1")
        /\ new !! "role" = Some (VStr "user")
        /\ (forall k, new !! k <> None ->
                      k = "_id" \/ k = "name" \/ k = "username"
                      \/ k = "password" \/ k = "role")
        /\ products (db w') = products (db shop)
        /\ customers (db w') = customers (db shop)
        /\ sales (db w') = sales (db shop)
        /\ (forall name' password' role',
              quiet 2 w' = true ->
              exists w'',
                create_user name' "riya" password' role' w'
                = (Raise DuplicateUsername, w'')
                /\ db w'' = db w')).
Proof.
  split.
  - apply (create_user_duplicate_or_fresh shop "Someone" "admin" "pw" "user"
             eq_refl) with admin.
    vm_compute. reflexivity.
  - apply (create_user_duplicate_or_fresh shop "Riya Sharma" "riya" "pw1"
             "user" eq_refl).
    vm_compute. reflexivity.
Defined.

(** The two calls of the specification: the second one is refused and the
    users are counted as after the first. *)
Example create_user_twice :
  let r1 := create_user "Riya Sharma" "riya" "pw1" "user" shop in
  let r2 := create_user "Riya S." "riya" "pw2" "admin" r1.2 in
  r1.1 = Return (VOid 10%N)
  /\ r2.1 = Raise DuplicateUsername
  /\ length (users (db r1.2)) = 2%nat
  /\ users (db r2.2) = users (db r1.2).
Proof. vm_compute. repeat split. Qed.

Lemma log_in_outcomes_witness :
  (forall d stored,
     find (matches "username" (VStr (strip " admin "))) (users (db shop))
     = Some d ->
     d !! "password" = Some (VStr "adminpass") ->
     d !! "role" = Some (VStr stored) ->
     (stored <> "user" ->
      (log_in " admin " "adminpass" "user" (mkSession false None) shop).1
      = Return (RoleMismatch "user", mkSession false None))
     /\ (stored = "user" ->
         (log_in " admin " "adminpass" "user" (mkSession false None) shop).1
         = Return (Welcome, mkSession true (Some d))))
  /\ RoleMismatch "user" <> InvalidCredentials
  /\ (find (matches "username" (VStr " admin ")) (users (db shop)) = None ->
      (verify_credentials " admin " "adminpass" shop).1 = Return None)
  /\ (forall d,
        find (matches "username" (VStr " admin ")) (users (db shop)) = Some d ->
        d !! "password" <> Some (VStr "adminpass") ->
        (verify_credentials " admin " "adminpass" shop).1 = Return None)
  /\ (forall d,
        find (matches "username" (VStr " admin ")) (users (db shop)) = Some d ->
        d !! "password" = Some (VStr "adminpass") ->
        (verify_credentials " admin " "adminpass" shop).1 = Return (Some d)).
Proof.
  apply (log_in_outcomes shop " admin " "adminpass" "user"
           (mkSession false None)).
  reflexivity.
Defined.

(** The two attempts of the specification, and a wrong password. *)
Example log_in_admin :
  (log_in "admin" "adminpass" "user" (mkSession false None) shop).1
  = Return (RoleMismatch "user", mkSession false None)
  /\ (log_in "admin" "adminpass" "admin" (mkSession false None) shop).1
     = Return (Welcome, mkSession true (Some admin))
  /\ (log_in "admin" "guess" "admin" (mkSession false None) shop).1
     = Return (InvalidCredentials, mkSession false None).
Proof. vm_compute. repeat split. Qed.

(** ** Updating and deleting by identifier *)

Lemma get_set_coll c l d : get_coll c (set_coll c l d) = l.
Proof. now destruct c. Qed.

Lemma sales_set_coll c l d :
  c = Products \/ c = Customers -> sales (set_coll c l d) = sales d.
Proof. now intros [-> | ->]. Qed.

Lemma update_one_set_absent c o (upd : patch) w :
  bson_ok (patch_fields upd) = true -> quiet 1 w = true ->
  find (by_id o) (get_coll c (db w)) = None ->
  update_one_set c o upd w = (Return tt, sent (EvUpdate c) w).
Proof.
  intros B Q F. unfold update_one_set. cbv zeta. rewrite B.
  destruct (request_quiet (EvUpdate c) w 0 Q) as [E _].
  rewrite (bind_return _ _ _ _ _ E). unfold bind, read_coll.
  cbn [sent db]. now rewrite F.
Qed.

Lemma update_one_set_found c o (upd : patch) w d :
  bson_ok (patch_fields upd) = true -> quiet 1 w = true ->
  find (by_id o) (get_coll c (db w)) = Some d ->
  patch_fields upd !! "_id" = None
  \/ patch_fields upd !! "_id" = Some (VOid o) ->
  update_one_set c o upd w
  = (Return tt,
     mkWorld (set_coll c (replace_first (by_id o)
                            (fun d => patch_fields upd ∪ d)
                            (get_coll c (db w))) (db w))
             (next_oid w) (clock w) (tail (faults w))
             (trace w ++ [EvUpdate c])).
Proof.
  intros B Q F I. unfold update_one_set. cbv zeta. rewrite B.
  destruct (request_quiet (EvUpdate c) w 0 Q) as [E _].
  rewrite (bind_return _ _ _ _ _ E). unfold bind, read_coll.
  cbn [sent db]. rewrite F. now rewrite bool_decide_true.
Qed.

Lemma update_one_set_id c o (upd : patch) w d :
  bson_ok (patch_fields upd) = true -> quiet 1 w = true ->
  find (by_id o) (get_coll c (db w)) = Some d ->
  ~ (patch_fields upd !! "_id" = None
     \/ patch_fields upd !! "_id" = Some (VOid o)) ->
  update_one_set c o upd w = (Raise WriteError, sent (EvUpdate c) w).
Proof.
  intros B Q F I. unfold update_one_set. cbv zeta. rewrite B.
  destruct (request_quiet (EvUpdate c) w 0 Q) as [E _].
  rewrite (bind_return _ _ _ _ _ E). unfold bind, read_coll.
  cbn [sent db]. rewrite F. now rewrite bool_decide_false.
Qed.

Lemma merged_keeps_id o (upd d : doc) :
  d !! "_id" = Some (VOid o) ->
  upd !! "_id" = None \/ upd !! "_id" = Some (VOid o) ->
  by_id o (upd ∪ d) = true.
Proof.
  intros Hd I. unfold by_id, matches. apply bool_decide_eq_true.
  destruct I as [I | I].
  - now rewrite lookup_union_r.
  - now apply lookup_union_Some_l.
Qed.

(** C8 (as the program has it). The partial update is a [patch]: at least
    one field, every name a plain top-level field name; its values can be
    encoded and the store answers.  An update whose identifier is well
    formed but resolves to no record is a silent no-op: it returns normally
    and the database is left as it was.  When the identifier resolves and
    the update does not change [_id], the given fields are written over
    those of the record, every field that is not given keeps its value, and
    no other record changes; an update that changes [_id] is refused by the
    store with a write error and changes nothing. *)
Theorem update_merges_or_ignores w c f v o (upd : patch) :
  (f = update_product /\ c = Products)
  \/ (f = update_customer /\ c = Customers) ->
  known_id v = Some o -> bson_ok (patch_fields upd) = true ->
  quiet 1 w = true ->
  (find (by_id o) (get_coll c (db w)) = None ->
   exists w', f v upd w = (Return tt, w') /\ db w' = db w)
  /\ (forall d,
        find (by_id o) (get_coll c (db w)) = Some d ->
        patch_fields upd !! "_id" = None
        \/ patch_fields upd !! "_id" = Some (VOid o) ->
        exists w',
          f v upd w = (Return tt, w')
          /\ db w'
             = set_coll c (replace_first (by_id o)
                             (fun d => patch_fields upd ∪ d)
                             (get_coll c (db w))) (db w)
          /\ find (by_id o) (get_coll c (db w'))
             = Some (patch_fields upd ∪ d)
          /\ (forall k x, patch_fields upd !! k = Some x ->
                          (patch_fields upd ∪ d) !! k = Some x)
          /\ (forall k, patch_fields upd !! k = None ->
                        (patch_fields upd ∪ d) !! k = d !! k))
  /\ (forall d,
        find (by_id o) (get_coll c (db w)) = Some d ->
        ~ (patch_fields upd !! "_id" = None
           \/ patch_fields upd !! "_id" = Some (VOid o)) ->
        exists w', f v upd w = (Raise WriteError, w') /\ db w' = db w).
Proof.
  intros Hf K B Q.
  assert (E : f v upd w = update_one_set c o upd w).
  { destruct Hf as [[-> ->] | [-> ->]];
      unfold update_product, update_customer;
      now rewrite (bind_return _ _ _ _ _ (ObjectId_known _ _ _ K)). }
  rewrite E. split_and!.
  - intros F. rewrite (update_one_set_absent _ _ _ _ B Q F).
    eexists. split; reflexivity.
  - intros d F I. rewrite (update_one_set_found _ _ _ _ d B Q F I).
    eexists. split; [reflexivity|]. cbn [db]. split; [reflexivity|].
    rewrite get_set_coll. split_and!.
    + apply (find_replace_first (by_id o) (fun d => patch_fields upd ∪ d)
               _ d F).
      apply merged_keeps_id; [|exact I]. exact (found_matches _ _ _ _ F).
    + intros k x Hk. now apply lookup_union_Some_l.
    + intros k Hk. now apply lookup_union_r.
  - intros d F I. rewrite (update_one_set_id _ _ _ _ d B Q F I).
    eexists. split; reflexivity.
Qed.

(** The theorem at work in the shop: a record that does not exist, the price
    of the one that does, and an attempt to give it another identifier. *)
Lemma update_merges_or_ignores_witness :
  (exists w',
     update_product (VOid 99%N) new_name shop = (Return tt, w')
     /\ db w' = db shop)
  /\ (exists w',
        update_product (VOid 1%N) new_price shop = (Return tt, w')
        /\ db w'
           = set_coll Products
               (replace_first (by_id 1%N)
                  (fun d => patch_fields new_price ∪ d)
                  (get_coll Products (db shop))) (db shop)
        /\ find (by_id 1%N) (get_coll Products (db w'))
           = Some (patch_fields new_price ∪ tshirt)
        /\ (forall k x, patch_fields new_price !! k = Some x ->
                        (patch_fields new_price ∪ tshirt) !! k = Some x)
        /\ (forall k, patch_fields new_price !! k = None ->
                      (patch_fields new_price ∪ tshirt) !! k = tshirt !! k))
  /\ (exists w',
        update_product (VOid 1%N) new_id shop = (Raise WriteError, w')
        /\ db w' = db shop).
Proof.
  split_and!.
  - apply (update_merges_or_ignores shop Products update_product
             (VOid 99%N) 99%N new_name);
      [left; split; reflexivity | reflexivity | vm_compute; reflexivity
      | reflexivity | vm_compute; reflexivity].
  - apply (update_merges_or_ignores shop Products update_product
             (VOid 1%N) 1%N new_price);
      [left; split; reflexivity | reflexivity | vm_compute; reflexivity
      | reflexivity | vm_compute; reflexivity | left; vm_compute; reflexivity].
  - apply (update_merges_or_ignores shop Products update_product
             (VOid 1%N) 1%N new_id) with tshirt;
      [left; split; reflexivity | reflexivity | vm_compute; reflexivity
      | reflexivity | vm_compute; reflexivity
      | vm_compute; intros [I | I]; discriminate I].
Defined.

(** An update of a record that does not exist returns normally: there is no
    [NotFound]. *)
Lemma update_product_absent_returns :
  find (by_id 99%N) (products (db shop)) = None
  /\ find (by_id 99%N) (customers (db shop)) = None
  /\ (update_product (VOid 99%N) new_name shop).1 = Return tt
  /\ (update_customer (VOid 99%N) new_name shop).1 = Return tt.
Proof. vm_compute. repeat split. Qed.

(** The new price is stored, the stock is the one it was. *)
Example update_product_price :
  let r := update_product (VOid 1%N) new_price shop in
  (fun d : doc => (d !! "price", d !! "stock", d !! "name"))
    <$> products (db r.2)
  = [(Some (VFloat (float_of_Z 349)), Some (VInt 100),
      Some (VStr "T-Shirt"))].
Proof. vm_compute. reflexivity. Qed.

Lemma set_get_coll c d : set_coll c (get_coll c d) d = d.
Proof. now destruct c, d. Qed.

Lemma delete_one_run c o w :
  quiet 1 w = true ->
  delete_one c o w
  = (Return tt,
     mkWorld (set_coll c (remove_first (by_id o) (get_coll c (db w))) (db w))
             (next_oid w) (clock w) (tail (faults w))
             (trace w ++ [EvDelete c])).
Proof.
  intros Q. unfold delete_one.
  destruct (request_quiet (EvDelete c) w 0 Q) as [E _].
  now rewrite (bind_return _ _ _ _ _ E).
Qed.

Lemma find_remove_first_unique o (l : list doc) :
  unique_ids l -> find (by_id o) (remove_first (by_id o) l) = None.
Proof.
  unfold unique_ids. induction l as [|d l IH]; [reflexivity|].
  rewrite fmap_cons. intros U. apply NoDup_cons in U as [Hd U]. simpl.
  destruct (by_id o d) eqn:E.
  - destruct (find (by_id o) l) as [d'|] eqn:F; [|reflexivity].
    exfalso. apply Hd.
    pose proof (found_matches _ _ _ _ F) as Hd'.
    apply find_some in F as [Hin _].
    unfold by_id, matches in E. apply bool_decide_eq_true in E.
    rewrite E, <- Hd'. apply list_elem_of_fmap. exists d'. split; [reflexivity|].
    now apply list_elem_of_In.
  - simpl. rewrite E. now apply IH.
Qed.

(** C9. Deleting by a well-formed identifier always returns normally.  When
    no record has the identifier the database is left as it was; after one
    deletion no record has the identifier, so that a second deletion changes
    nothing more; and the sales are never looked at: they are the same after
    the deletion, whether or not one of them refers to the deleted record. *)
Theorem delete_idempotent_unchecked w c f v o :
  (f = delete_product /\ c = Products)
  \/ (f = delete_customer /\ c = Customers) ->
  known_id v = Some o -> quiet 2 w = true ->
  unique_ids (get_coll c (db w)) ->
  exists w1 w2,
    f v w = (Return tt, w1)
    /\ f v w1 = (Return tt, w2)
    /\ (find (by_id o) (get_coll c (db w)) = None -> db w1 = db w)
    /\ get_coll c (db w1) = remove_first (by_id o) (get_coll c (db w))
    /\ find (by_id o) (get_coll c (db w1)) = None
    /\ db w2 = db w1
    /\ sales (db w1) = sales (db w).
Proof.
  intros Hf K Q U.
  assert (E : forall w0, f v w0 = delete_one c o w0).
  { intros w0. destruct Hf as [[-> ->] | [-> ->]];
      unfold delete_product, delete_customer;
      now rewrite (bind_return _ _ _ _ _ (ObjectId_known _ _ _ K)). }
  assert (Hc : c = Products \/ c = Customers) by tauto.
  pose proof (quiet_S _ _ Q) as Q1.
  eexists _, _. split; [rewrite E; apply (delete_one_run _ _ _ Q1)|].
  assert (Q2 : quiet 1 (mkWorld
            (set_coll c (remove_first (by_id o) (get_coll c (db w))) (db w))
            (next_oid w) (clock w) (tail (faults w))
            (trace w ++ [EvDelete c])) = true).
  { revert Q. unfold quiet. cbn [faults].
    destruct (faults w) as [|a [|b l]]; simpl; try reflexivity.
    intros H. apply andb_prop in H as [_ H]. exact H. }
  split; [rewrite E; apply (delete_one_run _ _ _ Q2)|].
  cbn [db]. rewrite !get_set_coll.
  pose proof (find_remove_first_unique o _ U) as G.
  split_and!.
  - intros F. rewrite (remove_first_absent _ _ F). apply set_get_coll.
  - reflexivity.
  - exact G.
  - rewrite (remove_first_absent _ _ G).
    rewrite <- (get_set_coll c (remove_first (by_id o) (get_coll c (db w)))
                  (db w)) at 1.
    apply set_get_coll.
  - now apply sales_set_coll.
Qed.

Lemma delete_idempotent_unchecked_witness :
  exists w1 w2,
    delete_product (VOid 1%N) shop_sold = (Return tt, w1)
    /\ delete_product (VOid 1%N) w1 = (Return tt, w2)
    /\ (find (by_id 1%N) (get_coll Products (db shop_sold)) = None ->
        db w1 = db shop_sold)
    /\ get_coll Products (db w1)
       = remove_first (by_id 1%N) (get_coll Products (db shop_sold))
    /\ find (by_id 1%N) (get_coll Products (db w1)) = None
    /\ db w2 = db w1
    /\ sales (db w1) = sales (db shop_sold).
Proof.
  apply (delete_idempotent_unchecked shop_sold Products delete_product
           (VOid 1%N) 1%N);
    [left; split; reflexivity | reflexivity | vm_compute; reflexivity |].
  unfold unique_ids. vm_compute. apply NoDup_singleton.
Defined.

(** The sold product is deleted: the sale still refers to it, and an
    identifier that was never stored is deleted just as well. *)
Example delete_product_dangling :
  let r := delete_product (VOid 1%N) shop_sold in
  r.1 = Return tt
  /\ products (db r.2) = []
  /\ (fun d : doc => d !! "product_id") <$> sales (db r.2)
     = [Some (VOid 1%N)]
  /\ (delete_customer (VOid 99%N) shop_sold).1 = Return tt
  /\ db (delete_customer (VOid 99%N) shop_sold).2 = db shop_sold.
Proof. vm_compute. repeat split. Qed.

(** ** Malformed identifiers *)

Section MalformedIds.
Context `{Literals}.


End MalformedIds.



(** A string of 24 characters with blanks between or after its bytes is not
    malformed for [ObjectId]: 22 digits and two blanks are an identifier of
    11 bytes, which no record has.  The update is sent and returns, and
    [insert_sale] looks both records up before it raises its own error. *)
Example blank_padded_id_accepted :
  let s := "0123456789abcdef012345  " in
  let r := @insert_sale plain_literals (VStr s) (VOid 2%N) (VInt 2)
                        (VFloat (float_of_Z 299)) None shop in
  String.length s = 24
  /\ fromhex s = Some [1; 35; 69; 103; 137; 171; 205; 239; 1; 35; 69]%N
  /\ update_product (VStr s) new_name shop
     = (Return tt, sent (EvUpdate Products) shop)
  /\ r.1 = Raise InvalidReference
  /\ trace r.2 = [EvFind Products; EvFind Customers].
Proof. vm_compute. repeat split. Qed.

(** ** The report of sales by product *)

Lemma float_geb_rank x y :
  float_geb x y = true <-> rank_ge (float_rank x) (float_rank y).
Proof.
  unfold rank_ge.
  destruct x as [sx|sx| |sx mx ex], y as [sy|sy| |sy my ey];
    try destruct sx; try destruct sy; cbn;
    try (split; [intros; lia | reflexivity]);
    try (split; [discriminate | intros; lia]).
  - destruct (Z.compare_spec ex ey) as [->|L|L].
    + change (PosDef.Pos.compare_cont Eq mx my) with (Pos.compare mx my).
      destruct (Pos.compare_spec mx my) as [->|M|M]; cbn;
        (split; [intros; lia | reflexivity])
        || (split; [discriminate | intros; lia]).
    + split; [intros; lia | reflexivity].
    + split; [discriminate | intros; lia].
  - destruct (Z.compare_spec ex ey) as [->|L|L].
    + change (PosDef.Pos.compare_cont Eq mx my) with (Pos.compare mx my).
      destruct (Pos.compare_spec mx my) as [->|M|M]; cbn;
        (split; [intros; lia | reflexivity])
        || (split; [discriminate | intros; lia]).
    + split; [discriminate | intros; lia].
    + split; [intros; lia | reflexivity].
Qed.

Lemma float_geb_total x y : float_geb x y = true \/ float_geb y x = true.
Proof. rewrite !float_geb_rank. unfold rank_ge. lia. Qed.

Lemma float_geb_trans x y z :
  float_geb x y = true -> float_geb y z = true -> float_geb x z = true.
Proof. rewrite !float_geb_rank. unfold rank_ge. lia. Qed.

Lemma groupby_sum_keys (rows : list row) :
  (groupby_sum rows).*1 = group_keys rows.
Proof.
  unfold groupby_sum. rewrite <- list_fmap_compose.
  rewrite <- (list_fmap_id (group_keys rows)) at 2.
  now apply list_fmap_ext.
Qed.

Lemma group_keys_perm (rows : list row) :
  group_keys rows ≡ₚ remove_dups (rows.*1).
Proof. apply merge_sort_Permutation. Qed.

Lemma sales_by_product_perm (rows : list row) :
  sales_by_product rows ≡ₚ groupby_sum rows.
Proof. apply merge_sort_Permutation. Qed.

(** A group of one sale: its sum is the total of the sale. *)
Lemma group_sum_one v :
  is_nan v = false -> (forall s, v <> S754_zero s) -> group_sum [v] = v.
Proof.
  intros Hn Hz. unfold group_sum. cbn [foldl kahan_step]. rewrite Hn.
  cbn [fst].
  destruct v as [s|s| |s m e]; try reflexivity; try discriminate.
  now destruct (Hz s).
Qed.

Lemma foldl_kahan_step acc vals :
  foldl kahan_step acc vals
  = foldl (fun (acc : spec_float * spec_float) v =>
             if is_nan v then acc
             else
               let y := SFsub prec emax v acc.2 in
               let s := SFadd prec emax acc.1 y in
               let c := SFsub prec emax (SFsub prec emax s acc.1) y in
               (s, if is_nan c then S754_zero false else c))
          acc vals.
Proof.
  revert acc. induction vals as [|v vals IH]; intros acc; [reflexivity|].
  cbn [foldl]. rewrite IH. f_equal. now destruct acc.
Qed.

Lemma row_key_in_groups (rows : list row) k v :
  (k, v) ∈ rows -> k ∈ group_keys rows.
Proof.
  intros Hin. rewrite group_keys_perm. apply elem_of_remove_dups.
  apply list_elem_of_fmap. now exists (k, v).
Qed.

(** C7. The page computes the report when there is at least one sale (it
    shows none when there is no sale, and the report is then empty).  The
    report has one row for each product name that occurs in the sales and
    no other row.  The row of a name holds the sum of the totals of the sales of that
    name, as pandas computes it on floats: in the order of the sales, with
    Kahan's compensation, the totals that are NaN being skipped; the row of
    a name with one sale holds the total of that sale.  The rows are in
    descending order of that sum, NaN last. *)
Theorem sales_by_product_spec (rows : list row) :
  exists report,
    byprod rows = match rows with [] => None | _ => Some report end
    /\ NoDup (report.*1)
    /\ (forall k, k ∈ report.*1 <-> k ∈ rows.*1)
    /\ (forall k t, (k, t) ∈ report ->
          t = (foldl (fun (acc : spec_float * spec_float) v =>
                        if is_nan v then acc
                        else
                          let y := SFsub prec emax v acc.2 in
                          let s := SFadd prec emax acc.1 y in
                          let c :=
                            SFsub prec emax (SFsub prec emax s acc.1) y in
                          (s, if is_nan c then S754_zero false else c))
                     (S754_zero false, S754_zero false)
                     ((filter (fun r => r.1 = k) rows).*2)).1)
    /\ (forall k v,
          filter (fun r => r.1 = k) rows = [(k, v)] ->
          is_nan v = false -> (forall s, v <> S754_zero s) ->
          (k, v) ∈ report)
    /\ StronglySorted (fun a b => float_geb a.2 b.2 = true) report.
Proof.
  exists (sales_by_product rows).
  assert (P : (sales_by_product rows).*1 ≡ₚ remove_dups (rows.*1)).
  { rewrite sales_by_product_perm, groupby_sum_keys. apply group_keys_perm. }
  split_and!.
  - now destruct rows.
  - rewrite P. apply NoDup_remove_dups.
  - intros k. rewrite P. apply elem_of_remove_dups.
  - intros k t Hin. rewrite sales_by_product_perm in Hin.
    unfold groupby_sum in Hin. apply list_elem_of_fmap in Hin as (k' & E & _).
    inversion E; subst. unfold group_sum, group_totals.
    now rewrite foldl_kahan_step.
  - intros k v Hf Hn Hz. rewrite sales_by_product_perm.
    unfold groupby_sum. apply list_elem_of_fmap. exists k. split.
    + unfold group_totals. rewrite Hf. cbn [fmap list_fmap snd].
      now rewrite group_sum_one.
    + apply (row_key_in_groups rows k v).
      assert (Hin : (k, v) ∈ filter (fun r : row => r.1 = k) rows)
        by (rewrite Hf; apply list_elem_of_here).
      now apply list_elem_of_filter in Hin as [_ Hin].
  - assert (T : Total total_ge).
    { intros a b. unfold total_ge. apply float_geb_total. }
    assert (Tr : Transitive total_ge).
    { intros a b c. unfold total_ge. apply float_geb_trans. }
    unfold sales_by_product, sort_by_total_desc.
    apply (StronglySorted_merge_sort total_ge).
Qed.

(** The example of the specification: 100 and 25 for A, 50 for B. *)
Lemma sales_by_product_spec_witness :
  let report := [("A", float_of_Z 125); ("B", float_of_Z 50)] in
  byprod example_rows = Some report
  /\ NoDup (report.*1)
  /\ (forall k, k ∈ report.*1 <-> k ∈ example_rows.*1)
  /\ (forall k t, (k, t) ∈ report ->
        t = (foldl (fun (acc : spec_float * spec_float) v =>
                      if is_nan v then acc
                      else
                        let y := SFsub prec emax v acc.2 in
                        let s := SFadd prec emax acc.1 y in
                        let c :=
                          SFsub prec emax (SFsub prec emax s acc.1) y in
                        (s, if is_nan c then S754_zero false else c))
                   (S754_zero false, S754_zero false)
                   ((filter (fun r => r.1 = k) example_rows).*2)).1)
  /\ (forall k v,
        filter (fun r => r.1 = k) example_rows = [(k, v)] ->
        is_nan v = false -> (forall s, v <> S754_zero s) ->
        (k, v) ∈ report)
  /\ StronglySorted (fun a b => float_geb a.2 b.2 = true) report.
Proof.
  intros report.
  destruct (sales_by_product_spec example_rows) as (r & E & R).
  assert (Er : r = report) by (vm_compute in E; now injection E as <-).
  subst r. split; [vm_compute; reflexivity | exact R].
Defined.

(** A total that is NaN is skipped, a group with no other total sums to
    zero, and a sum that is NaN comes last. *)
Example sales_by_product_nan :
  byprod [("A", S754_nan); ("B", float_of_Z 50); ("B", S754_nan);
          ("C", S754_infinity false); ("C", S754_infinity true);
          ("D", float_of_Z (-7))]
  = Some [("B", float_of_Z 50); ("A", S754_zero false);
          ("D", float_of_Z (-7)); ("C", S754_nan)].
Proof. vm_compute. reflexivity. Qed.

(** The compensation at work: 2^53 + 1 + 1 is 2^53 + 2, where adding the
    totals one after the other gives 2^53. *)
Example sales_by_product_compensated :
  byprod [("A", float_of_Z (2 ^ 53)); ("A", float_of_Z 1);
          ("A", float_of_Z 1)]
  = Some [("A", float_of_Z (2 ^ 53 + 2))]
  /\ SFadd prec emax (SFadd prec emax (float_of_Z (2 ^ 53)) (float_of_Z 1))
             (float_of_Z 1)
     = float_of_Z (2 ^ 53).
Proof. vm_compute. split; reflexivity. Qed.

(** The report over the sales stored in the shop after the sale of two
    shirts; there is none before. *)
Example sales_by_product_shop :
  frame_rows (sales (db shop_sold)) ≫= byprod
  = Some [("T-Shirt", float_of_Z 598)]
  /\ frame_rows (sales (db shop)) ≫= byprod = None.
Proof. vm_compute. split; reflexivity. Qed.
